(** * Gearbox vibration analysis: feature extraction and rule-based fault scoring

    A shallow embedding of [backend/preprocessor.py], [backend/analyzer.py]
    and the analysis part of [config.py], with the file-name check of
    [app.py] and [webapp.py] and the data that [backend/visualizer.py]
    computes for the frequency plot and the feature chart.

    Numbers.  The program computes with Python floats and numpy arrays of
    float64.  In the main development they are embedded as real numbers
    ([R]) and lists of reals, every arithmetic operation being the exact
    one.  The statements proved there are about comparisons, selections by
    boolean masks, the shape of the results, which calls return, and
    arithmetic that binary64 performs exactly or monotonically (zeros,
    negation, [min], a quotient by the maximum).  Python integers that
    only count elements are [nat] and are injected with [INR].

    Rounding and overflow.  Module [F64] replays the same functions in
    binary64, on the kernel's primitive floats, for arrays short enough
    that the order of every addition is fixed by the source.  Properties
    that hold over the reals and fail in binary64 are evaluated there.

    Failure.  A Python exception is embedded as [None]: reductions of an
    empty array ([np.max], [np.ptp], [np.argmax], [np.fft.rfft]), a
    division of Python numbers by zero and a missing dictionary key.

    Dictionaries.  Python dictionaries keep insertion order; the ones the
    program iterates over are association lists in that order. *)

From Stdlib Require Import Reals Lra List String Ascii Bool Arith Lia.
From Stdlib Require Import Permutation.
From Stdlib Require Floats Uint63.
Import ListNotations.
Open Scope string_scope.
Open Scope list_scope.
Open Scope R_scope.

(** ** Python and numpy primitives *)

Module Py.

(** Comparison operators on floats, as booleans. *)
Definition ltb (x y : R) : bool := if Rlt_dec x y then true else false.
Definition leb (x y : R) : bool := if Rle_dec x y then true else false.
Definition gtb (x y : R) : bool := ltb y x.
Definition geb (x y : R) : bool := leb y x.
Definition eqb (x y : R) : bool := if Req_dec_T x y then true else false.

(** The builtin [min(a, b)]: the first argument unless the second is
    strictly smaller. *)
Definition min (a b : R) : R := if ltb b a then b else a.

(** [x / y] on Python numbers (floats, or integers under true division);
    [None] stands for [ZeroDivisionError]. *)
Definition div (x y : R) : option R := if eqb y 0 then None else Some (x / y).

(** The builtin [sum] over a sequence of floats. *)
Definition sum (xs : list R) : R := fold_left Rplus xs 0.

(** An insertion-ordered [dict] with string keys. *)
Definition dict (V : Type) : Type := list (string * V).

Definition items {V} (d : dict V) : list (string * V) := d.
Definition values {V} (d : dict V) : list V := map snd d.

(** [d[k] = v]: replaces the value of an existing key in place, or adds
    the key at the end. *)
Fixpoint set {V} (d : dict V) (k : string) (v : V) : dict V :=
  match d with
  | [] => [(k, v)]
  | (k', v') :: rest =>
      if String.eqb k k' then (k', v) :: rest else (k', v') :: set rest k v
  end.

(** [d[k]]; [None] stands for [KeyError]. *)
Fixpoint get {V} (d : dict V) (k : string) : option V :=
  match d with
  | [] => None
  | (k', v) :: rest => if String.eqb k k' then Some v else get rest k
  end.

End Py.

Module Np.

(** [np.sum]. *)
Definition sum (xs : list R) : R := fold_right Rplus 0 xs.

(** [np.mean]: the sum over the number of elements. *)
Definition mean (xs : list R) : R := sum xs / INR (List.length xs).

(** [xs ** 2], elementwise. *)
Definition square (xs : list R) : list R := map (fun x => x ^ 2) xs.

(** [np.abs], elementwise. *)
Definition abs (xs : list R) : list R := map Rabs xs.

(** [np.std] with its default [ddof=0]: the population standard
    deviation. *)
Definition std (xs : list R) : R :=
  let m := mean xs in
  sqrt (mean (square (abs (map (fun x => x - m) xs)))).

(** [np.max]; raises on an empty array. *)
Definition max (xs : list R) : option R :=
  match xs with
  | [] => None
  | x :: rest => Some (fold_left Rmax rest x)
  end.

(** [np.min]; raises on an empty array. *)
Definition min (xs : list R) : option R :=
  match xs with
  | [] => None
  | x :: rest => Some (fold_left Rmin rest x)
  end.

(** [np.ptp]: maximum minus minimum. *)
Definition ptp (xs : list R) : option R :=
  match max xs, min xs with
  | Some hi, Some lo => Some (hi - lo)
  | _, _ => None
  end.

(** [np.argmax]: the first index holding the maximum; raises on an empty
    array.  The loop keeps the best index and value seen so far and
    replaces them only by a strictly larger value. *)
Fixpoint argmax_from (xs : list R) (i best : nat) (bestv : R) : nat :=
  match xs with
  | [] => best
  | x :: rest =>
      if Py.ltb bestv x then argmax_from rest (S i) i x
      else argmax_from rest (S i) best bestv
  end.

Definition argmax (xs : list R) : option nat :=
  match xs with
  | [] => None
  | x :: rest => Some (argmax_from rest 1 0 x)
  end.

(** [xs[mask]] for a boolean array [mask]: the elements of [xs] where the
    mask holds; raises when the two lengths differ. *)
Fixpoint select (xs : list R) (mask : list bool) : option (list R) :=
  match xs, mask with
  | [], [] => Some []
  | x :: xs', m :: mask' =>
      match select xs' mask' with
      | Some sel => Some (if m then x :: sel else sel)
      | None => None
      end
  | _, _ => None
  end.

(** A complex number, as its real and imaginary parts, and its modulus
    ([np.abs] on a complex array). *)
Definition complex : Type := (R * R)%type.
Definition cabs (z : complex) : R := sqrt (fst z ^ 2 + snd z ^ 2).

(** [np.fft.rfft]: the one-sided discrete Fourier transform of a real
    sequence of length [N], bins [0 .. N/2]:
    [X_k = sum_n x_n * exp (- 2 pi i k n / N)].  Raises on an empty
    sequence. *)
Definition dft_bin (xs : list R) (k : nat) : complex :=
  let N := List.length xs in
  let angle (n : nat) := 2 * PI * INR k * INR n / INR N in
  (sum (map (fun '(n, x) => x * cos (angle n)) (combine (seq 0 N) xs)),
   - sum (map (fun '(n, x) => x * sin (angle n)) (combine (seq 0 N) xs))).

Definition rfft (xs : list R) : option (list complex) :=
  match xs with
  | [] => None
  | _ => Some (map (dft_bin xs) (seq 0 (List.length xs / 2 + 1)))
  end.

(** [np.fft.rfftfreq(n, d)]: the bin frequencies [k / (n * d)] for
    [k = 0 .. n/2], computed as [k * val] with [val = 1.0 / (n * d)], a
    division of Python floats. *)
Definition rfftfreq (n : nat) (d : R) : option (list R) :=
  match Py.div 1.0 (INR n * d) with
  | Some val => Some (map (fun k => INR k * val) (seq 0 (n / 2 + 1)))
  | None => None
  end.

End Np.

(** ** Python strings and [os.path]

    File names are ASCII strings.  [lower] is [str.lower] on ASCII: the
    letters [A] to [Z] go to [a] to [z] and every other character is
    kept. *)

Module Str.

(** [c in s] for a one-character string [c]. *)
Fixpoint contains (c : ascii) (s : string) : bool :=
  match s with
  | EmptyString => false
  | String c' rest => Ascii.eqb c c' || contains c rest
  end.

(** The split of [s] at the last occurrence of [sep]: what stands before
    it and what stands after it; [None] when [sep] does not occur. *)
Fixpoint rpartition (sep : ascii) (s : string) : option (string * string) :=
  match s with
  | EmptyString => None
  | String c rest =>
      match rpartition sep rest with
      | Some (before, after) => Some (String c before, after)
      | None => if Ascii.eqb c sep then Some (EmptyString, rest) else None
      end
  end.

(** [s.rsplit(sep, 1)]: the two parts around the last [sep], or [s] alone
    when [sep] does not occur. *)
Definition rsplit1 (sep : ascii) (s : string) : list string :=
  match rpartition sep s with
  | Some (before, after) => [before; after]
  | None => [s]
  end.

Definition lower_char (c : ascii) : ascii :=
  let n := nat_of_ascii c in
  if ((65 <=? n) && (n <=? 90))%nat then ascii_of_nat (n + 32) else c.

(** [s.lower()]. *)
Fixpoint lower (s : string) : string :=
  match s with
  | EmptyString => EmptyString
  | String c rest => String (lower_char c) (lower rest)
  end.

(** [s.startswith(p)]. *)
Definition startswith (s p : string) : bool := String.prefix p s.

(** [x in xs] for a set or list of strings. *)
Definition mem (x : string) (xs : list string) : bool :=
  existsb (String.eqb x) xs.

End Str.

Module OsPath.

(** Whether every character is a dot. *)
Fixpoint all_dots (s : string) : bool :=
  match s with
  | EmptyString => true
  | String c rest => Ascii.eqb c "."%char && all_dots rest
  end.

(** [os.path.splitext] on POSIX: the extension starts at the last dot of
    the last path component, unless only dots stand before it in that
    component; without an extension the second part is empty. *)
Definition splitext (p : string) : string * string :=
  let (dir, base) :=
    match Str.rpartition "/"%char p with
    | Some (d, b) => ((d ++ "/")%string, b)
    | None => (EmptyString, p)
    end in
  match Str.rpartition "."%char base with
  | Some (stem, e) =>
      if all_dots stem then (p, EmptyString)
      else ((dir ++ stem)%string, String "."%char e)
  | None => (p, EmptyString)
  end.

(** Whether the last character is a slash. *)
Fixpoint ends_with_sep (s : string) : bool :=
  match s with
  | EmptyString => false
  | String c EmptyString => Ascii.eqb c "/"%char
  | String _ rest => ends_with_sep rest
  end.

(** [os.path.join(a, b)] on POSIX: [b] alone when it is absolute, else [a]
    and [b] with one slash between them, unless [a] is empty or ends with
    a slash already. *)
Definition join (a b : string) : string :=
  if Str.startswith b "/" then b
  else if (String.eqb a EmptyString || ends_with_sep a)%bool then (a ++ b)%string
  else (a ++ String "/"%char b)%string.

End OsPath.

(** ** [config.py] *)

Module Config.

Definition SAMPLING_RATE : R := 12000.
Definition FAULT_THRESHOLD : R := 0.5.

Definition DAMAGE_LEVELS : Py.dict (R * R) :=
  [ ("healthy", (0.0, 0.2));
    ("slight", (0.2, 0.4));
    ("moderate", (0.4, 0.6));
    ("severe", (0.6, 0.8));
    ("critical", (0.8, 1.0)) ].

Definition UPLOAD_FOLDER : string := "uploads".

(** The set of extensions that an upload may have. *)
Definition ALLOWED_EXTENSIONS : list string :=
  ["csv"; "txt"; "xlsx"; "xls"; "mat"].

End Config.

(** ** The feature records

    [time_features] and [freq_features] are dictionaries built by one
    literal with fixed keys; they are records here.  [frequency_bands] is
    filled by a loop over the band table and stays a dictionary. *)

Record TimeFeatures : Type := mkTimeFeatures {
  mean : R;
  std : R;
  rms : R;
  peak : R;
  peak_to_peak : R;
  crest_factor : R;
  kurtosis : R;
  skewness : R
}.

Record FreqFeatures : Type := mkFreqFeatures {
  peak_frequency : R;
  spectral_power : R;
  frequency_bands : Py.dict R
}.

(** One detected fault hypothesis: the dictionary with the keys ['type'],
    ['confidence'] and ['description']. *)
Record Fault : Type := mkFault {
  type : string;
  confidence : R;
  description : string
}.

(** ** [backend/preprocessor.py]: class [DataPreprocessor] *)

Module DataPreprocessor.

(** The dictionary returned by [preprocess]. *)
Record Processed : Type := mkProcessed {
  signal : list R;
  time_features : TimeFeatures;
  freq_features : FreqFeatures;
  sampling_rate : R
}.

Section WithFilter.

(** [self.sampling_rate]. *)
Variable sampling_rate : R.

(** The two scipy calls of the band-pass step.  [butter order low high]
    is [signal.butter(order, [low, high], btype='band')], the filter
    coefficients [(b, a)]; [filtfilt b a x] is [signal.filtfilt(b, a, x)].
    [None] stands for any exception they raise. *)
Variable butter : nat -> R -> R -> option (list R * list R).
Variable filtfilt : list R -> list R -> list R -> option (list R).

(** [try: body except: pass], where [body] assigns its result to a
    variable that holds [old] before. *)
Definition try_assign {A} (body : option A) (old : A) : A :=
  match body with
  | Some v => v
  | None => old
  end.

(** The body of the [try] block: filter design, then filtering. *)
Definition try_filter (low high : R) (signal_data : list R)
  : option (list R) :=
  match butter 4 low high with
  | Some (b, a) => filtfilt b a signal_data
  | None => None
  end.

(** The conditioning part of [preprocess], on a flat numeric sequence:
    DC removal, then the best-effort band-pass filter.  The two divisions
    by [nyquist] stand before the [try] block. *)
Definition condition (data : list R) : option (list R) :=
  let signal_data := data in
  let m := Np.mean signal_data in
  let signal_data := map (fun x => x - m) signal_data in
  if (100 <? List.length signal_data)%nat then
    let nyquist := sampling_rate / 2 in
    match Py.div 10 nyquist with
    | None => None
    | Some low =>
        match Py.div 5000 nyquist with
        | None => None
        | Some q =>
            let high := Py.min q 0.99 in
            Some (try_assign (try_filter low high signal_data) signal_data)
        end
    end
  else Some signal_data.

(** [_kurtosis].  The two quotients of the [return] expression divide
    Python integers: they raise [ZeroDivisionError] when the divisor is 0,
    which the guard [n < 4] excludes. *)
Definition _kurtosis (data : list R) : option R :=
  let n := List.length data in
  if (n <? 4)%nat then Some 0.0
  else
    let mean := Np.mean data in
    let std := Np.std data in
    if Py.eqb std 0 then Some 0.0
    else
      match Py.div (INR (n * (n + 1))) (INR ((n - 1) * (n - 2) * (n - 3))) with
      | None => None
      | Some c1 =>
          let s := Np.sum (map (fun x => ((x - mean) / std) ^ 4) data) in
          match Py.div (INR (3 * (n - 1) ^ 2)) (INR ((n - 2) * (n - 3))) with
          | None => None
          | Some c2 => Some (c1 * s - c2)
          end
      end.

(** [_skewness]; its quotient of Python integers raises when the divisor
    is 0, which the guard [n < 3] excludes. *)
Definition _skewness (data : list R) : option R :=
  let n := List.length data in
  if (n <? 3)%nat then Some 0.0
  else
    let mean := Np.mean data in
    let std := Np.std data in
    if Py.eqb std 0 then Some 0.0
    else
      match Py.div (INR n) (INR ((n - 1) * (n - 2))) with
      | None => None
      | Some c =>
          Some (c * Np.sum (map (fun x => ((x - mean) / std) ^ 3) data))
      end.

Definition _extract_time_features (signal_data : list R)
  : option TimeFeatures :=
  match Np.max (Np.abs signal_data), Np.ptp signal_data with
  | Some pk, Some p2p =>
      match _kurtosis signal_data, _skewness signal_data with
      | Some k, Some s =>
          Some {| mean := Np.mean signal_data;
                  std := Np.std signal_data;
                  rms := sqrt (Np.mean (Np.square signal_data));
                  peak := pk;
                  peak_to_peak := p2p;
                  crest_factor :=
                    if Py.gtb (Np.mean (Np.square signal_data)) 0
                    then pk / sqrt (Np.mean (Np.square signal_data))
                    else 0;
                  kurtosis := k;
                  skewness := s |}
      | _, _ => None
      end
  | _, _ => None
  end.

(** The band table of [_compute_band_powers], in its insertion order. *)
Definition bands : Py.dict (R * R) :=
  [ ("low", (0, 500)); ("mid", (500, 2000)); ("high", (2000, 5000)) ].

(** The loop of [_compute_band_powers] over [bands.items()], filling
    [band_powers]. *)
Fixpoint band_loop (items : list (string * (R * R)))
    (freq magnitude : list R) (band_powers : Py.dict R)
  : option (Py.dict R) :=
  match items with
  | [] => Some band_powers
  | (band_name, (low, high)) :: rest =>
      let mask := map (fun f => Py.geb f low && Py.ltb f high) freq in
      match Np.select magnitude mask with
      | Some sel =>
          band_loop rest freq magnitude
            (Py.set band_powers band_name (Np.sum (Np.square sel)))
      | None => None
      end
  end.

Definition _compute_band_powers (freq magnitude : list R)
  : option (Py.dict R) :=
  band_loop (Py.items bands) freq magnitude [].

Definition _extract_frequency_features (signal_data : list R)
  : option FreqFeatures :=
  match Np.rfft signal_data with
  | None => None
  | Some fft_vals =>
      let fft_mag := map Np.cabs fft_vals in
      match Py.div 1 sampling_rate with
      | None => None
      | Some d =>
          match Np.rfftfreq (List.length signal_data) d with
          | None => None
          | Some fft_freq =>
              match Np.argmax fft_mag with
              | None => None
              | Some peak_idx =>
                  match nth_error fft_freq peak_idx with
                  | None => None
                  | Some peak_freq =>
                      let total_power := Np.sum (Np.square fft_mag) in
                      match _compute_band_powers fft_freq fft_mag with
                      | None => None
                      | Some band_powers =>
                          Some {| peak_frequency := peak_freq;
                                  spectral_power := total_power;
                                  frequency_bands := band_powers |}
                      end
                  end
              end
          end
      end
  end.

(** [preprocess] on a flat numeric sequence. *)
Definition preprocess (data : list R) : option Processed :=
  match condition data with
  | None => None
  | Some signal_data =>
      match _extract_time_features signal_data with
      | None => None
      | Some tf =>
          match _extract_frequency_features signal_data with
          | None => None
          | Some ff => Some (mkProcessed signal_data tf ff sampling_rate)
          end
      end
  end.

End WithFilter.

(** *** [load_data]

    The readers ([pd.read_csv], [np.loadtxt], [pd.read_excel] and
    [scipy.io.loadmat]) are parameters; [None] stands for any exception
    they raise.  [load_data] itself raises [ValueError] with a message,
    and [UnboundLocalError] at [return data] when the loop over the keys
    of a [.mat] file has assigned nothing. *)

Inductive Exception : Type :=
| ValueError (msg : string)
| UnboundLocalError
| ReaderError.

Section WithReaders.

Variable Data : Type.
Variable read_csv : string -> option Data.
Variable loadtxt : string -> option Data.
Variable read_excel : string -> option Data.
Variable loadmat : string -> option (Py.dict Data).

(** A call of a reader outside any [try]: its exception propagates. *)
Definition call (result : option Data) : Exception + Data :=
  match result with
  | Some data => inr data
  | None => inl ReaderError
  end.

(** The loop over [mat_data.keys()]: the value of the first key that does
    not start with two underscores; [None] when the loop ends without an
    assignment. *)
Fixpoint first_array (items : list (string * Data)) : option Data :=
  match items with
  | [] => None
  | (key, value) :: rest =>
      if negb (Str.startswith key "__") then Some value
      else first_array rest
  end.

Definition load_data (filepath : string) : Exception + Data :=
  let ext := Str.lower (snd (OsPath.splitext filepath)) in
  if String.eqb ext ".csv" then call (read_csv filepath)
  else if String.eqb ext ".txt" then call (loadtxt filepath)
  else if Str.mem ext [".xlsx"; ".xls"] then call (read_excel filepath)
  else if String.eqb ext ".mat" then
    match loadmat filepath with
    | None => inl (ValueError "Could not load .mat file")
    | Some mat_data =>
        match first_array (Py.items mat_data) with
        | Some data => inr data
        | None => inl UnboundLocalError
        end
    end
  else inl (ValueError ("Unsupported file format: " ++ ext)%string).

End WithReaders.

End DataPreprocessor.

(** ** [backend/analyzer.py]: class [VibrationAnalyzer] *)

Module VibrationAnalyzer.

(** The dictionary returned by [analyze]. *)
Record Analysis : Type := mkAnalysis {
  fault_score : R;
  damage_level : string;
  is_faulty : bool;
  fault_types : list Fault;
  recommendations : list string;
  time_features : TimeFeatures;
  freq_features : FreqFeatures
}.

Definition fault_threshold : R := Config.FAULT_THRESHOLD.
Definition damage_levels : Py.dict (R * R) := Config.DAMAGE_LEVELS.

Definition _calculate_fault_score (tf : TimeFeatures) (ff : FreqFeatures) : R :=
  let rms_score := Py.min (rms tf / 10.0) 1.0 in
  let kurtosis_score := Py.min (Rabs (kurtosis tf) / 10.0) 1.0 in
  let crest_score := Py.min (crest_factor tf / 10.0) 1.0 in
  let band_powers := frequency_bands ff in
  let total_band_power := Py.sum (Py.values band_powers) in
  let band_imbalance :=
    if Py.gtb total_band_power 0
    then Np.std (Py.values band_powers) / (total_band_power / 3)
    else 0 in
  let band_score := Py.min band_imbalance 1.0 in
  let fault_score :=
    0.3 * rms_score + 0.3 * kurtosis_score + 0.2 * crest_score
    + 0.2 * band_score in
  Py.min fault_score 1.0.

(** The [for] loop over [self.damage_levels.items()], returning at the
    first interval that holds the score; the code after the loop returns
    ['critical']. *)
Fixpoint classify_loop (levels : list (string * (R * R))) (fault_score : R)
  : string :=
  match levels with
  | [] => "critical"
  | (level, (low, high)) :: rest =>
      if Py.leb low fault_score && Py.ltb fault_score high then level
      else classify_loop rest fault_score
  end.

Definition _classify_damage_level (fault_score : R) : string :=
  classify_loop (Py.items damage_levels) fault_score.

(** [faults.append(f)] when [c] holds. *)
Definition append_if (c : bool) (f : Fault) (faults : list Fault) : list Fault :=
  if c then faults ++ [f] else faults.

Definition _detect_fault_types (tf : TimeFeatures) (ff : FreqFeatures)
  : option (list Fault) :=
  let faults := [] in
  let faults :=
    append_if (Py.gtb (kurtosis tf) 5)
      (mkFault "bearing_fault" (Py.min (kurtosis tf / 10.0) 1.0)
         "Possible bearing defect detected") faults in
  let faults :=
    append_if (Py.ltb (peak_frequency ff) 100)
      (mkFault "unbalance" 0.6 "Possible rotor unbalance detected") faults in
  let band_powers := frequency_bands ff in
  match Py.get band_powers "high", Py.get band_powers "low" with
  | Some high, Some low =>
      let faults :=
        append_if (Py.gtb high (low * 0.5))
          (mkFault "misalignment" 0.5 "Possible shaft misalignment detected")
          faults in
      let faults :=
        append_if (Py.ltb 500 (peak_frequency ff)
                   && Py.ltb (peak_frequency ff) 2000)
          (mkFault "gear_fault" 0.6 "Possible gear mesh fault detected")
          faults in
      let faults :=
        append_if (match faults with [] => true | _ => false end
                   && Py.gtb (rms tf) 5)
          (mkFault "general_abnormality" 0.5
             "Abnormal vibration levels detected") faults in
      Some faults
  | _, _ => None
  end.

(** The first [if]/[elif] chain: the strings appended for the damage
    level. *)
Definition level_recommendations (damage_level : string) : list string :=
  if String.eqb damage_level "healthy" then
    ["System is operating normally. Continue routine monitoring."]
  else if String.eqb damage_level "slight" then
    ["Minor abnormalities detected. Increase monitoring frequency."]
  else if String.eqb damage_level "moderate" then
    ["Moderate wear detected. Schedule inspection within 2-4 weeks."]
  else if String.eqb damage_level "severe" then
    ["Severe damage detected. Schedule immediate inspection.";
     "Consider reducing operational load until maintenance."]
  else if String.eqb damage_level "critical" then
    ["CRITICAL: Shutdown recommended to prevent catastrophic failure.";
     "Immediate maintenance required."]
  else [].

(** The body of the loop over [fault_types]: the strings appended for one
    hypothesis. *)
Definition fault_recommendations (fault : Fault) : list string :=
  if String.eqb (type fault) "bearing_fault" then
    ["Inspect bearings for wear, contamination, or lubrication issues."]
  else if String.eqb (type fault) "unbalance" then
    ["Check rotor balance and perform balancing if necessary."]
  else if String.eqb (type fault) "misalignment" then
    ["Check shaft alignment and realign if necessary."]
  else if String.eqb (type fault) "gear_fault" then
    ["Inspect gear teeth for wear, pitting, or damage."]
  else [].

Definition _generate_recommendations (damage_level : string)
    (fault_types : list Fault) : list string :=
  let recommendations := [] in
  let recommendations := recommendations ++ level_recommendations damage_level in
  fold_left (fun recommendations fault =>
               recommendations ++ fault_recommendations fault)
    fault_types recommendations.

(** [analyze] reads [processed_data['time_features']] and
    [processed_data['freq_features']] and nothing else of its argument; it
    takes the two records here. *)
Definition analyze (tf : TimeFeatures) (ff : FreqFeatures) : option Analysis :=
  let fault_score := _calculate_fault_score tf ff in
  let damage_level := _classify_damage_level fault_score in
  match _detect_fault_types tf ff with
  | None => None
  | Some fault_types =>
      let recommendations := _generate_recommendations damage_level fault_types in
      Some (mkAnalysis fault_score damage_level
              (Py.gtb fault_score fault_threshold)
              fault_types recommendations tf ff)
  end.

End VibrationAnalyzer.

(** ** The pipeline: [analyzer.analyze(preprocessor.preprocess(data))] *)

Module Pipeline.

Section WithFilter.

Variable sampling_rate : R.
Variable butter : nat -> R -> R -> option (list R * list R).
Variable filtfilt : list R -> list R -> list R -> option (list R).

Definition run (data : list R) : option VibrationAnalyzer.Analysis :=
  match DataPreprocessor.preprocess sampling_rate butter filtfilt data with
  | None => None
  | Some processed_data =>
      VibrationAnalyzer.analyze
        (DataPreprocessor.time_features processed_data)
        (DataPreprocessor.freq_features processed_data)
  end.

End WithFilter.

End Pipeline.

(** ** The pass-through filter

    The simplest instance of the two scipy calls: the design step returns
    the coefficients [b = a = [1]] and the filter returns its input.  It
    instantiates the statements that hold for every filter. *)

Module PassThrough.

Definition butter (order : nat) (low high : R) : option (list R * list R) :=
  Some ([1], [1]).

Definition filtfilt (b a x : list R) : option (list R) := Some x.

Definition run : list R -> option VibrationAnalyzer.Analysis :=
  Pipeline.run Config.SAMPLING_RATE butter filtfilt.

End PassThrough.

(** ** Readers without files

    The simplest instance of the four readers: no file exists, so each of
    them raises.  It instantiates the statements that hold for every
    reader. *)

Module NoFiles.

Definition Data : Type := list R.
Definition read_csv (filepath : string) : option Data := None.
Definition loadtxt (filepath : string) : option Data := None.
Definition read_excel (filepath : string) : option Data := None.
Definition loadmat (filepath : string) : option (Py.dict Data) := None.

Definition load_data : string -> DataPreprocessor.Exception + Data :=
  DataPreprocessor.load_data Data read_csv loadtxt read_excel loadmat.

End NoFiles.

(** ** A reader of one [.mat] file

    An instance of [loadmat] that returns, for every path, the header
    entries that scipy adds and one array named [vib]. *)

Module MatFile.

Definition Data : Type := list R.

Definition loadmat (filepath : string) : option (Py.dict Data) :=
  Some [("__header__", []); ("__version__", []); ("__globals__", []);
        ("vib", [1; 2; 3])].

Definition load_data : string -> DataPreprocessor.Exception + Data :=
  DataPreprocessor.load_data Data NoFiles.read_csv NoFiles.loadtxt
    NoFiles.read_excel loadmat.

End MatFile.

(** ** [app.py] and [webapp.py]: the check of the uploaded file name *)

Module App.

(** [allowed_file]; [None] stands for the [IndexError] of
    [rsplit('.', 1)[1]]. *)
Definition allowed_file (filename : string) : option bool :=
  if Str.contains "."%char filename then
    match nth_error (Str.rsplit1 "."%char filename) 1 with
    | Some ext => Some (Str.mem (Str.lower ext) Config.ALLOWED_EXTENSIONS)
    | None => None
    end
  else Some false.

End App.

Module Webapp.

Definition ALLOWED_EXTENSIONS : list string := ["csv"].

Definition allowed_file (filename : string) : option bool :=
  if Str.contains "."%char filename then
    match nth_error (Str.rsplit1 "."%char filename) 1 with
    | Some ext => Some (Str.mem (Str.lower ext) ALLOWED_EXTENSIONS)
    | None => None
    end
  else Some false.

End Webapp.

(** ** [backend/visualizer.py]: what [create_feature_chart] plots *)

Module Visualizer.


(** The builtin [max] of a sequence: the first largest element; raises on
    an empty sequence. *)
Definition max (xs : list R) : option R :=
  match xs with
  | [] => None
  | x :: rest =>
      Some (fold_left (fun best y => if Py.gtb y best then y else best) rest x)
  end.


(** [np.where(xs <= c)[0]]: the indices, in ascending order, of the
    elements that are at most [c]; [i] is the index of the head. *)
Fixpoint where_le_from (i : nat) (xs : list R) (c : R) : list nat :=
  match xs with
  | [] => []
  | x :: rest =>
      if Py.leb x c then i :: where_le_from (S i) rest c
      else where_le_from (S i) rest c
  end.

Definition where_le (xs : list R) (c : R) : list nat := where_le_from 0 xs c.

(** The two arrays that [create_frequency_domain_plot] hands to
    [plt.plot]: the bin frequencies and the magnitudes before [max_idx],
    the last index of a bin of at most 5000 Hz. *)
Definition frequency_plot_data (signal_data : list R) (sampling_rate : R)
  : option (list R * list R) :=
  match Np.rfft signal_data with
  | None => None
  | Some fft_vals =>
      let fft_mag := map Np.cabs fft_vals in
      match Py.div 1 sampling_rate with
      | None => None
      | Some d =>
          match Np.rfftfreq (List.length signal_data) d with
          | None => None
          | Some fft_freq =>
              let max_freq_idx := where_le fft_freq 5000 in
              let max_idx :=
                if (0 <? List.length max_freq_idx)%nat
                then last max_freq_idx 0%nat
                else List.length fft_freq in
              Some (firstn max_idx fft_freq, firstn max_idx fft_mag)
          end
      end
  end.

End Visualizer.

(** ** The same functions in binary64

    The functions of the preprocessor and the score of the analyzer on
    IEEE 754 binary64 numbers, the kernel's primitive floats: every
    operation rounds to nearest-even, overflows to an infinity and
    propagates NaN as Python and numpy do, and every definition computes.

    The module replays the source where the source fixes every rounding:
    [None] marks what it leaves out.  That is a reduction of eight or more
    elements (numpy adds fewer than eight elements one after the other,
    and longer arrays in blocks), a transform of more than two samples
    (for one and two samples the transform is the sample, and the sum and
    the difference of the two samples), a power other than the square, the
    band-pass filter of signals of more than 100 samples, and every
    exception. *)

Module F64.

Import PrimFloat.
#[local] Set Warnings "-inexact-float".
Local Open Scope float_scope.

Local Notation "'let*' x ':=' e 'in' f" :=
  (match e with Some x => f | None => None end)
  (at level 10, x name, e at level 200, f at level 200).

(** The float of a Python integer that counts elements. *)
Definition of_nat (n : nat) : float := of_uint63 (Uint63.of_Z (Z.of_nat n)).

(** The builtins [min(a, b)] and [sum] (which starts from 0). *)
Definition py_min (a b : float) : float := if ltb b a then b else a.
Definition py_sum (xs : list float) : float := fold_left add xs 0.

(** [np.sum] of fewer than eight elements: the loop
    [res = 0.; for x in xs: res += x]. *)
Definition np_sum (xs : list float) : option float :=
  if (List.length xs <? 8)%nat then Some (fold_left add xs 0) else None.

(** [np.mean]: the sum, divided by the number of elements. *)
Definition np_mean (xs : list float) : option float :=
  let* s := np_sum xs in Some (s / of_nat (List.length xs)).

(** [xs ** 2] and [np.abs], elementwise. *)
Definition square (xs : list float) : list float := map (fun x => x * x) xs.
Definition np_abs (xs : list float) : list float := map abs xs.

(** [np.std]: the mean is removed, the squares are averaged and the root
    is taken. *)
Definition np_std (xs : list float) : option float :=
  let* m := np_mean xs in
  let* s := np_sum (square (map (fun x => x - m) xs)) in
  Some (sqrt (s / of_nat (List.length xs))).

(** [np.maximum] and [np.minimum] keep a NaN; [np.max], [np.min] and
    [np.ptp] reduce with them. *)
Definition maximum (a b : float) : float :=
  if leb b a || is_nan a then a else b.
Definition minimum (a b : float) : float :=
  if leb a b || is_nan a then a else b.

Definition np_max (xs : list float) : option float :=
  match xs with
  | [] => None
  | x :: rest => Some (fold_left maximum rest x)
  end.

Definition np_min (xs : list float) : option float :=
  match xs with
  | [] => None
  | x :: rest => Some (fold_left minimum rest x)
  end.

Definition np_ptp (xs : list float) : option float :=
  let* hi := np_max xs in
  let* lo := np_min xs in
  Some (hi - lo).

(** The conditioning part of [preprocess] for at most 100 samples: the
    mean is removed and no filter is applied. *)
Definition condition (data : list float) : option (list float) :=
  let* m := np_mean data in
  let signal_data := map (fun x => x - m) data in
  if (100 <? List.length signal_data)%nat then None else Some signal_data.

(** [_kurtosis] and [_skewness] up to their second guard. *)
Definition _kurtosis (data : list float) : option float :=
  let n := List.length data in
  if (n <? 4)%nat then Some 0
  else
    let* std := np_std data in
    if eqb std 0 then Some 0 else None.

Definition _skewness (data : list float) : option float :=
  let n := List.length data in
  if (n <? 3)%nat then Some 0
  else
    let* std := np_std data in
    if eqb std 0 then Some 0 else None.

Record TimeFeatures : Type := mkTimeFeatures {
  mean : float;
  std : float;
  rms : float;
  peak : float;
  peak_to_peak : float;
  crest_factor : float;
  kurtosis : float;
  skewness : float
}.

Definition _extract_time_features (signal_data : list float)
  : option TimeFeatures :=
  let* m := np_mean signal_data in
  let* sd := np_std signal_data in
  let* ms := np_mean (square signal_data) in
  let* pk := np_max (np_abs signal_data) in
  let* p2p := np_ptp signal_data in
  let* k := _kurtosis signal_data in
  let* s := _skewness signal_data in
  Some {| mean := m;
          std := sd;
          rms := sqrt ms;
          peak := pk;
          peak_to_peak := p2p;
          crest_factor := if ltb 0 ms then pk / sqrt ms else 0;
          kurtosis := k;
          skewness := s |}.

(** [np.abs(np.fft.rfft(xs))] for one and two samples. *)
Definition rfft_abs (xs : list float) : option (list float) :=
  match xs with
  | [x0] => Some [abs x0]
  | [x0; x1] => Some [abs (x0 + x1); abs (x0 - x1)]
  | _ => None
  end.

(** [np.fft.rfftfreq(n, d)]: [val = 1.0 / (n * d)], then [k * val] for
    [k = 0 .. n/2]. *)
Definition rfftfreq (n : nat) (d : float) : option (list float) :=
  let nd := of_nat n * d in
  if eqb nd 0 then None
  else
    let val := 1 / nd in
    Some (map (fun k => of_nat k * val) (seq 0 (n / 2 + 1))).

(** [np.argmax]: the first index of the maximum, a NaN counting as the
    maximum. *)
Fixpoint argmax_from (xs : list float) (i best : nat) (bestv : float) : nat :=
  match xs with
  | [] => best
  | x :: rest =>
      if leb x bestv then argmax_from rest (S i) best bestv
      else if is_nan x then i
      else argmax_from rest (S i) i x
  end.

Definition np_argmax (xs : list float) : option nat :=
  match xs with
  | [] => None
  | x :: rest => Some (if is_nan x then 0%nat else argmax_from rest 1 0 x)
  end.

(** [xs[mask]] for a boolean array [mask]. *)
Fixpoint select (xs : list float) (mask : list bool) : option (list float) :=
  match xs, mask with
  | [], [] => Some []
  | x :: xs', m :: mask' =>
      let* sel := select xs' mask' in
      Some (if m then x :: sel else sel)
  | _, _ => None
  end.

Definition bands : Py.dict (float * float) :=
  [ ("low", (0, 500)); ("mid", (500, 2000)); ("high", (2000, 5000)) ].

Fixpoint band_loop (items : list (string * (float * float)))
    (freq magnitude : list float) (band_powers : Py.dict float)
  : option (Py.dict float) :=
  match items with
  | [] => Some band_powers
  | (band_name, (low, high)) :: rest =>
      let mask := map (fun f => leb low f && ltb f high) freq in
      let* sel := select magnitude mask in
      let* power := np_sum (square sel) in
      band_loop rest freq magnitude (Py.set band_powers band_name power)
  end.

Definition _compute_band_powers (freq magnitude : list float)
  : option (Py.dict float) :=
  band_loop (Py.items bands) freq magnitude [].

Record FreqFeatures : Type := mkFreqFeatures {
  peak_frequency : float;
  spectral_power : float;
  frequency_bands : Py.dict float
}.

Definition _extract_frequency_features (sampling_rate : float)
    (signal_data : list float) : option FreqFeatures :=
  let* fft_mag := rfft_abs signal_data in
  if eqb sampling_rate 0 then None
  else
    let* fft_freq := rfftfreq (List.length signal_data) (1 / sampling_rate) in
    let* peak_idx := np_argmax fft_mag in
    let* peak_freq := nth_error fft_freq peak_idx in
    let* total_power := np_sum (square fft_mag) in
    let* band_powers := _compute_band_powers fft_freq fft_mag in
    Some {| peak_frequency := peak_freq;
            spectral_power := total_power;
            frequency_bands := band_powers |}.

(** [preprocess], without the entries ['signal'] and ['sampling_rate']. *)
Definition preprocess (sampling_rate : float) (data : list float)
  : option (TimeFeatures * FreqFeatures) :=
  let* signal_data := condition data in
  let* tf := _extract_time_features signal_data in
  let* ff := _extract_frequency_features sampling_rate signal_data in
  Some (tf, ff).

Definition _calculate_fault_score (tf : TimeFeatures) (ff : FreqFeatures)
  : option float :=
  let rms_score := py_min (rms tf / 10) 1 in
  let kurtosis_score := py_min (abs (kurtosis tf) / 10) 1 in
  let crest_score := py_min (crest_factor tf / 10) 1 in
  let band_powers := frequency_bands ff in
  let total_band_power := py_sum (Py.values band_powers) in
  let* band_imbalance :=
    if ltb 0 total_band_power
    then
      let* sd := np_std (Py.values band_powers) in
      Some (sd / (total_band_power / 3))
    else Some 0 in
  let band_score := py_min band_imbalance 1 in
  let fault_score :=
    0.3 * rms_score + 0.3 * kurtosis_score + 0.2 * crest_score
    + 0.2 * band_score in
  Some (py_min fault_score 1).

Definition DAMAGE_LEVELS : Py.dict (float * float) :=
  [ ("healthy", (0, 0.2));
    ("slight", (0.2, 0.4));
    ("moderate", (0.4, 0.6));
    ("severe", (0.6, 0.8));
    ("critical", (0.8, 1)) ].

Fixpoint classify_loop (levels : list (string * (float * float)))
    (fault_score : float) : string :=
  match levels with
  | [] => "critical"
  | (level, (low, high)) :: rest =>
      if leb low fault_score && ltb fault_score high then level
      else classify_loop rest fault_score
  end.

Definition _classify_damage_level (fault_score : float) : string :=
  classify_loop (Py.items DAMAGE_LEVELS) fault_score.

(** The three entries of the result of [analyze] that the score
    determines. *)
Record Analysis : Type := mkAnalysis {
  fault_score : float;
  damage_level : string;
  is_faulty : bool
}.

Definition analyze (tf : TimeFeatures) (ff : FreqFeatures) : option Analysis :=
  let* fault_score := _calculate_fault_score tf ff in
  Some {| fault_score := fault_score;
          damage_level := _classify_damage_level fault_score;
          is_faulty := ltb 0.5 fault_score |}.

(** [analyzer.analyze(preprocessor.preprocess(data))]. *)
Definition run (sampling_rate : float) (data : list float) : option Analysis :=
  let* processed_data := preprocess sampling_rate data in
  analyze (fst processed_data) (snd processed_data).

End F64.

(** ** Vocabulary of the specification

    The definitions below follow the words of the specification; the
    theorems compare them with the functions above. *)

Module Spec.

(** The five damage labels. *)
Definition labels : list string :=
  ["healthy"; "slight"; "moderate"; "severe"; "critical"].

(** A table entry [(label, (low, high))] contains a score when the score
    lies in the half-open interval [[low, high)]. *)
Definition contains (e : string * (R * R)) (s : R) : Prop :=
  fst (snd e) <= s < snd (snd e).

(** [clamp(x, 0, 1)]. *)
Definition clamp01 (x : R) : R := Rmax 0 (Rmin x 1).

(** The population standard deviation. *)
Definition pop_std (xs : list R) : R :=
  let n := INR (List.length xs) in
  let mu := fold_right Rplus 0 xs / n in
  sqrt (fold_right Rplus 0 (map (fun x => (x - mu) ^ 2) xs) / n).

(** [std(band_powers) / (total_band_power / 3)], defined as 0 when the
    total band power is 0. *)
Definition band_ratio (powers : list R) : R :=
  let total := fold_right Rplus 0 powers in
  if Req_dec_T total 0 then 0 else pop_std powers / (total / 3).

Definition fault_score (tf : TimeFeatures) (ff : FreqFeatures) : R :=
  clamp01 (0.3 * Rmin (rms tf / 10) 1
           + 0.3 * Rmin (Rabs (kurtosis tf) / 10) 1
           + 0.2 * Rmin (crest_factor tf / 10) 1
           + 0.2 * Rmin (band_ratio (Py.values (frequency_bands ff))) 1).

(** The five hypotheses of the fault-type rules. *)
Definition bearing_fault (k : R) : Fault :=
  mkFault "bearing_fault" (Rmin (k / 10) 1) "Possible bearing defect detected".
Definition unbalance : Fault :=
  mkFault "unbalance" 0.6 "Possible rotor unbalance detected".
Definition misalignment : Fault :=
  mkFault "misalignment" 0.5 "Possible shaft misalignment detected".
Definition gear_fault : Fault :=
  mkFault "gear_fault" 0.6 "Possible gear mesh fault detected".
Definition general_abnormality : Fault :=
  mkFault "general_abnormality" 0.5 "Abnormal vibration levels detected".

(** The conditions of the four specific rules. *)
Definition bearing_rule (tf : TimeFeatures) : bool := Py.gtb (kurtosis tf) 5.
Definition unbalance_rule (ff : FreqFeatures) : bool :=
  Py.ltb (peak_frequency ff) 100.
Definition misalignment_rule (high low : R) : bool := Py.gtb high (0.5 * low).
Definition gear_rule (ff : FreqFeatures) : bool :=
  Py.ltb 500 (peak_frequency ff) && Py.ltb (peak_frequency ff) 2000.

(** A rule contributes its hypothesis when its condition holds. *)
Definition fired (c : bool) (f : Fault) : list Fault := if c then [f] else [].

(** The rules in their fixed order; [general_abnormality] when none of the
    four fired and [rms > 5]. *)
Definition fault_rules (tf : TimeFeatures) (ff : FreqFeatures)
    (high low : R) : list Fault :=
  fired (bearing_rule tf) (bearing_fault (kurtosis tf))
  ++ fired (unbalance_rule ff) unbalance
  ++ fired (misalignment_rule high low) misalignment
  ++ fired (gear_rule ff) gear_fault
  ++ fired (negb (bearing_rule tf) && negb (unbalance_rule ff)
            && negb (misalignment_rule high low) && negb (gear_rule ff)
            && Py.gtb (rms tf) 5) general_abnormality.

(** The four specific fault types. *)
Definition specific_types : list string :=
  ["bearing_fault"; "unbalance"; "misalignment"; "gear_fault"].

(** The power of one band: the summed squared magnitude of the bins whose
    frequency [f] satisfies [low <= f < high]. *)
Definition in_band (low high f : R) : bool := Py.leb low f && Py.ltb f high.

Definition band_power (low high : R) (freq magnitude : list R) : R :=
  fold_right Rplus 0
    (map (fun '(f, m) => if in_band low high f then m ^ 2 else 0)
       (combine freq magnitude)).

(** The one-sided magnitude spectrum and the bin frequencies of a
    waveform. *)
Definition spectrum (waveform : list R) : list R :=
  map (fun k => Np.cabs (Np.dft_bin waveform k))
    (seq 0 (List.length waveform / 2 + 1)).

Definition bin_frequencies (sampling_rate : R) (waveform : list R) : list R :=
  map (fun k => INR k * sampling_rate / INR (List.length waveform))
    (seq 0 (List.length waveform / 2 + 1)).

(** The number of distinct fault types among the hypotheses. *)
Definition distinct_types (faults : list Fault) : nat :=
  List.length (nodup string_dec (map type faults)).

(** The shape of the recommendations as the specification words it: one or
    two strings for the damage level, then one string per distinct
    fault-type hypothesis. *)
Definition recommendations_shape (faults : list Fault) (recs : list string)
  : Prop :=
  exists level_part fault_part,
    recs = level_part ++ fault_part
    /\ (List.length level_part = 1 \/ List.length level_part = 2)%nat
    /\ List.length fault_part = distinct_types faults.

End Spec.

(** ** Facts about the primitives *)

Lemma ltb_spec (x y : R) : reflect (x < y) (Py.ltb x y).
Proof. unfold Py.ltb; destruct (Rlt_dec x y); constructor; assumption. Qed.

Lemma leb_spec (x y : R) : reflect (x <= y) (Py.leb x y).
Proof. unfold Py.leb; destruct (Rle_dec x y); constructor; assumption. Qed.

Lemma gtb_spec (x y : R) : reflect (x > y) (Py.gtb x y).
Proof. unfold Py.gtb, Rgt; apply ltb_spec. Qed.

Lemma geb_spec (x y : R) : reflect (x >= y) (Py.geb x y).
Proof.
  unfold Py.geb, Py.leb; destruct (Rle_dec y x); constructor; lra.
Qed.

Lemma eqb_spec (x y : R) : reflect (x = y) (Py.eqb x y).
Proof. unfold Py.eqb; destruct (Req_dec_T x y); constructor; assumption. Qed.

Lemma div_some (x y : R) : y <> 0 -> Py.div x y = Some (x / y).
Proof.
  intros Hy. unfold Py.div. destruct (eqb_spec y 0); [contradiction | reflexivity].
Qed.


Lemma div_zero (x : R) : Py.div x 0 = None.
Proof.
  unfold Py.div. destruct (eqb_spec 0 0) as [_ | H]; [reflexivity | congruence].
Qed.

Lemma min_Rmin (a b : R) : Py.min a b = Rmin a b.
Proof.
  unfold Py.min, Rmin.
  destruct (ltb_spec b a), (Rle_dec a b); lra.
Qed.



(** Destructs every comparison of the goal into its meaning. *)
Ltac cmp :=
  repeat match goal with
    | |- context [Py.ltb ?x ?y] => destruct (ltb_spec x y)
    | |- context [Py.leb ?x ?y] => destruct (leb_spec x y)
    | |- context [Py.gtb ?x ?y] => destruct (gtb_spec x y)
    | |- context [Py.geb ?x ?y] => destruct (geb_spec x y)
    | |- context [Py.eqb ?x ?y] => destruct (eqb_spec x y)
    end.

(** ** The damage-level classifier *)

Section Classify.

Import VibrationAnalyzer.

(** The loop returns the label of the first entry that contains the
    score. *)
Lemma classify_loop_first (levels : list (string * (R * R))) (s : R) :
  forall (i : nat) (e : string * (R * R)),
    nth_error levels i = Some e ->
    Spec.contains e s ->
    (forall j e', (j < i)%nat -> nth_error levels j = Some e' ->
                  ~ Spec.contains e' s) ->
    classify_loop levels s = fst e.
Proof.
  induction levels as [|[level [low high]] rest IH]; intros i e Hi He Hbefore.
  - destruct i; discriminate.
  - destruct i as [|i]; simpl in Hi |- *.
    + injection Hi as <-. unfold Spec.contains in He; simpl in He.
      cmp; simpl; try reflexivity; lra.
    + assert (Hnot : ~ Spec.contains (level, (low, high)) s)
        by (apply (Hbefore 0%nat); [lia | reflexivity]).
      unfold Spec.contains in Hnot; simpl in Hnot.
      cmp; simpl; try lra;
        apply (IH i e Hi He); intros j e' Hj; apply (Hbefore (S j)); lia.
Qed.

(** When no entry contains the score, the loop falls through. *)
Lemma classify_loop_none (levels : list (string * (R * R))) (s : R) :
  (forall e, In e levels -> ~ Spec.contains e s) ->
  classify_loop levels s = "critical".
Proof.
  induction levels as [|[level [low high]] rest IH]; intros Hnone; simpl.
  - reflexivity.
  - assert (Hnot : ~ Spec.contains (level, (low, high)) s)
      by (apply Hnone; left; reflexivity).
    unfold Spec.contains in Hnot; simpl in Hnot.
    cmp; simpl; try lra; apply IH; intros e He; apply Hnone; right; exact He.
Qed.

(** The loop returns a label of the table or ['critical']. *)
Lemma classify_loop_label (levels : list (string * (R * R))) (s : R) :
  In (classify_loop levels s) (map fst levels)
  \/ classify_loop levels s = "critical".
Proof.
  induction levels as [|[level [low high]] rest IH]; simpl.
  - right; reflexivity.
  - destruct (Py.leb low s && Py.ltb s high).
    + left; left; reflexivity.
    + destruct IH as [IH | IH]; [left; right; exact IH | right; exact IH].
Qed.

Lemma classify_in_labels (s : R) : In (_classify_damage_level s) Spec.labels.
Proof.
  destruct (classify_loop_label (Py.items damage_levels) s) as [H | H];
    unfold _classify_damage_level.
  - exact H.
  - rewrite H; simpl; tauto.
Qed.

End Classify.

(** ** The fault score *)









(** C5.  The damage level is the label of the first entry of the ordered
    table whose half-open interval contains the score; ['critical'] is
    returned when no interval contains it, which for a score in [[0,1]]
    happens exactly at 1. *)
Theorem C5_classify_damage_level (s : R) :
  (forall i e,
      nth_error Config.DAMAGE_LEVELS i = Some e ->
      Spec.contains e s ->
      (forall j e', (j < i)%nat -> nth_error Config.DAMAGE_LEVELS j = Some e' ->
                    ~ Spec.contains e' s) ->
      VibrationAnalyzer._classify_damage_level s = fst e)
  /\ ((forall e, In e Config.DAMAGE_LEVELS -> ~ Spec.contains e s) ->
      VibrationAnalyzer._classify_damage_level s = "critical")
  /\ (0 <= s <= 1 ->
      ((forall e, In e Config.DAMAGE_LEVELS -> ~ Spec.contains e s) <-> s = 1)).
Proof.
  split; [|split].
  - intros i e Hi He Hbefore.
    exact (classify_loop_first _ s i e Hi He Hbefore).
  - intros Hnone. exact (classify_loop_none _ s Hnone).
  - intros Hs; split.
    + intros Hnone.
      assert (H1 := Hnone ("healthy", (0.0, 0.2)) ltac:(simpl; tauto)).
      assert (H2 := Hnone ("slight", (0.2, 0.4)) ltac:(simpl; tauto)).
      assert (H3 := Hnone ("moderate", (0.4, 0.6)) ltac:(simpl; tauto)).
      assert (H4 := Hnone ("severe", (0.6, 0.8)) ltac:(simpl; tauto)).
      assert (H5 := Hnone ("critical", (0.8, 1.0)) ltac:(simpl; tauto)).
      unfold Spec.contains in *; simpl in *. lra.
    + intros -> e He. unfold Spec.contains.
      simpl in He.
      destruct He as [<- | [<- | [<- | [<- | [<- | []]]]]]; simpl; lra.
Qed.

(** The score 0.5 lies in the third interval and in none before it. *)
Lemma C5_classify_damage_level_witness :
  VibrationAnalyzer._classify_damage_level 0.5 = "moderate".
Proof.
  apply (proj1 (C5_classify_damage_level 0.5) 2%nat ("moderate", (0.4, 0.6))).
  - reflexivity.
  - unfold Spec.contains; simpl; lra.
  - intros j e' Hj He'.
    destruct j as [|[|j]]; simpl in He'.
    + injection He' as <-. unfold Spec.contains; simpl; lra.
    + injection He' as <-. unfold Spec.contains; simpl; lra.
    + lia.
Defined.

(** ** Fault-type detection *)

(** The sequence of conditional appends is the list of fired rules. *)
Lemma detect_fault_rules (tf : TimeFeatures) (ff : FreqFeatures) (high low : R) :
  Py.get (frequency_bands ff) "high" = Some high ->
  Py.get (frequency_bands ff) "low" = Some low ->
  VibrationAnalyzer._detect_fault_types tf ff
  = Some (Spec.fault_rules tf ff high low).
Proof.
  intros Hhigh Hlow.
  unfold VibrationAnalyzer._detect_fault_types; cbv zeta.
  rewrite Hhigh, Hlow.
  unfold Spec.fault_rules, Spec.bearing_rule, Spec.unbalance_rule,
    Spec.misalignment_rule, Spec.gear_rule, Spec.bearing_fault,
    Spec.unbalance, Spec.misalignment, Spec.gear_fault,
    Spec.general_abnormality, Spec.fired, VibrationAnalyzer.append_if.
  rewrite min_Rmin.
  replace (low * 0.5) with (0.5 * low) by lra.
  replace 10.0 with 10 by lra. replace 1.0 with 1 by lra.
  destruct (Py.gtb (kurtosis tf) 5), (Py.ltb (peak_frequency ff) 100),
    (Py.gtb high (0.5 * low)), (Py.ltb 500 (peak_frequency ff)),
    (Py.ltb (peak_frequency ff) 2000), (Py.gtb (rms tf) 5); reflexivity.
Qed.

(** Detection fails only on a missing band. *)
Lemma detect_some_inv (tf : TimeFeatures) (ff : FreqFeatures)
    (faults : list Fault) :
  VibrationAnalyzer._detect_fault_types tf ff = Some faults ->
  exists high low,
    Py.get (frequency_bands ff) "high" = Some high
    /\ Py.get (frequency_bands ff) "low" = Some low.
Proof.
  unfold VibrationAnalyzer._detect_fault_types; cbv zeta.
  destruct (Py.get (frequency_bands ff) "high") as [high|]; [|discriminate].
  destruct (Py.get (frequency_bands ff) "low") as [low|]; [|discriminate].
  intros _; exists high, low; split; reflexivity.
Qed.

(** C3.  Detection evaluates the four specific rules in the order
    bearing_fault, unbalance, misalignment, gear_fault, each appending its
    hypothesis when its own condition holds, and appends general_abnormality
    exactly when none of the four fired and [rms > 5]; several rules can
    fire on the same features. *)
Theorem C3_detect_fault_types :
  (forall tf ff high low,
      Py.get (frequency_bands ff) "high" = Some high ->
      Py.get (frequency_bands ff) "low" = Some low ->
      VibrationAnalyzer._detect_fault_types tf ff
      = Some (Spec.fault_rules tf ff high low))
  /\ (exists tf ff,
         VibrationAnalyzer._detect_fault_types tf ff
         = Some [Spec.bearing_fault (kurtosis tf); Spec.unbalance;
                 Spec.misalignment]).
Proof.
  split; [exact detect_fault_rules|].
  exists (mkTimeFeatures 0 1 1 3 6 3 8 0),
    (mkFreqFeatures 50 3 [("low", 1); ("mid", 1); ("high", 1)]).
  rewrite (detect_fault_rules _ _ 1 1) by reflexivity.
  unfold Spec.fault_rules, Spec.bearing_rule, Spec.unbalance_rule,
    Spec.misalignment_rule, Spec.gear_rule, Spec.fired; simpl.
  destruct (gtb_spec 8 5); [|lra].
  destruct (ltb_spec 50 100); [|lra].
  destruct (gtb_spec 1 (0.5 * 1)); [|lra].
  destruct (ltb_spec 500 50); [lra|].
  reflexivity.
Qed.

(** The features of scenario 3: kurtosis 8, rms 1, crest factor 3,
    balanced bands and a peak at 50 Hz. *)
Lemma C3_detect_fault_types_witness :
  VibrationAnalyzer._detect_fault_types
    (mkTimeFeatures 0 1 1 3 6 3 8 0)
    (mkFreqFeatures 50 3 [("low", 1); ("mid", 1); ("high", 1)])
  = Some (Spec.fault_rules
            (mkTimeFeatures 0 1 1 3 6 3 8 0)
            (mkFreqFeatures 50 3 [("low", 1); ("mid", 1); ("high", 1)]) 1 1).
Proof.
  apply (proj1 C3_detect_fault_types); reflexivity.
Defined.

(** ** Recommendations *)

Lemma fold_left_app_flat_map {A B} (f : A -> list B) (xs : list A) (acc : list B) :
  fold_left (fun acc x => acc ++ f x) xs acc = acc ++ flat_map f xs.
Proof.
  revert acc; induction xs as [|x xs IH]; intros acc; simpl.
  - rewrite app_nil_r; reflexivity.
  - rewrite IH, app_assoc; reflexivity.
Qed.

(** The recommendations are the strings of the level followed by the
    strings of each hypothesis, in list order. *)
Lemma generate_recommendations_app (level : string) (faults : list Fault) :
  VibrationAnalyzer._generate_recommendations level faults
  = VibrationAnalyzer.level_recommendations level
    ++ flat_map VibrationAnalyzer.fault_recommendations faults.
Proof.
  unfold VibrationAnalyzer._generate_recommendations; cbv zeta.
  rewrite fold_left_app_flat_map; reflexivity.
Qed.

(** Every one of the five labels has one or two strings. *)
Lemma level_recommendations_length (level : string) :
  In level Spec.labels ->
  (List.length (VibrationAnalyzer.level_recommendations level) = 1
   \/ List.length (VibrationAnalyzer.level_recommendations level) = 2)%nat.
Proof.
  simpl; intros [<- | [<- | [<- | [<- | [<- | []]]]]]; simpl; auto.
Qed.

(** The detected hypotheses have pairwise different types. *)
Lemma fault_rules_distinct (tf : TimeFeatures) (ff : FreqFeatures) (high low : R) :
  NoDup (map type (Spec.fault_rules tf ff high low)).
Proof.
  unfold Spec.fault_rules, Spec.fired.
  destruct (Spec.bearing_rule tf), (Spec.unbalance_rule ff),
    (Spec.misalignment_rule high low), (Spec.gear_rule ff),
    (Py.gtb (rms tf) 5); simpl;
    repeat (constructor; [simpl; intuition discriminate|]); constructor.
Qed.

(** C8, amended.  The recommendations depend on the damage level and the
    hypotheses only: the strings of the level (one or two for each of the
    five labels), followed, in the order of the hypotheses, by one fixed
    string for each hypothesis of a specific type (bearing_fault, unbalance,
    misalignment, gear_fault); a general_abnormality hypothesis contributes
    no string.  The hypotheses that detection returns have pairwise
    different types. *)
Theorem C8_generate_recommendations :
  (forall level faults,
      VibrationAnalyzer._generate_recommendations level faults
      = VibrationAnalyzer.level_recommendations level
        ++ flat_map VibrationAnalyzer.fault_recommendations faults)
  /\ (forall level,
        In level Spec.labels ->
        (List.length (VibrationAnalyzer.level_recommendations level) = 1
         \/ List.length (VibrationAnalyzer.level_recommendations level) = 2)%nat)
  /\ (forall f,
        In (type f) Spec.specific_types ->
        List.length (VibrationAnalyzer.fault_recommendations f) = 1%nat)
  /\ (forall f g,
        type f = type g ->
        VibrationAnalyzer.fault_recommendations f
        = VibrationAnalyzer.fault_recommendations g)
  /\ (forall f,
        type f = "general_abnormality" ->
        VibrationAnalyzer.fault_recommendations f = [])
  /\ (forall tf ff faults,
        VibrationAnalyzer._detect_fault_types tf ff = Some faults ->
        NoDup (map type faults)).
Proof.
  repeat split.
  - exact generate_recommendations_app.
  - exact level_recommendations_length.
  - intros f; unfold VibrationAnalyzer.fault_recommendations; simpl.
    intros [<- | [<- | [<- | [<- | []]]]]; reflexivity.
  - intros f g Hfg; unfold VibrationAnalyzer.fault_recommendations.
    rewrite Hfg; reflexivity.
  - intros f Hf; unfold VibrationAnalyzer.fault_recommendations.
    rewrite Hf; reflexivity.
  - intros tf ff faults Hdetect.
    destruct (detect_some_inv tf ff faults Hdetect) as (high & low & Hh & Hl).
    rewrite (detect_fault_rules tf ff high low Hh Hl) in Hdetect.
    injection Hdetect as <-. apply fault_rules_distinct.
Qed.

(** A severe level with a bearing and a gear hypothesis. *)
Lemma C8_generate_recommendations_witness :
  (List.length (VibrationAnalyzer.level_recommendations "severe") = 1
   \/ List.length (VibrationAnalyzer.level_recommendations "severe") = 2)%nat
  /\ List.length (VibrationAnalyzer.fault_recommendations Spec.gear_fault) = 1%nat.
Proof.
  destruct C8_generate_recommendations as (_ & Hlevel & Hfault & _).
  split.
  - apply Hlevel; simpl; tauto.
  - apply Hfault; simpl; tauto.
Defined.

(** The score of a record with [rms = 6] and nothing else. *)
Lemma fault_score_rms6 :
  VibrationAnalyzer._calculate_fault_score
    (mkTimeFeatures 0 6 6 6 12 0 0 0)
    (mkFreqFeatures 300 0 [("low", 0); ("mid", 0); ("high", 0)]) = 0.18.
Proof.
  unfold VibrationAnalyzer._calculate_fault_score, Py.sum; simpl.
  rewrite !min_Rmin, Rabs_R0.
  destruct (gtb_spec (0 + 0 + 0 + 0) 0) as [H | _]; [lra|].
  replace (6 / 10.0) with 0.6 by lra.
  replace (0 / 10.0) with 0 by lra.
  replace 1.0 with 1 by lra.
  rewrite (Rmin_left 0.6 1) by lra.
  rewrite (Rmin_left 0 1) by lra.
  rewrite Rmin_left; lra.
Qed.

(** C8 as stated fails: features with [rms = 6], a peak at 300 Hz and no
    band energy are analysed as healthy with the single hypothesis
    general_abnormality, and the recommendations hold the string of the
    level only, so no string stands for the hypothesis. *)
Lemma C8_counterexample :
  exists a,
    VibrationAnalyzer.analyze
      (mkTimeFeatures 0 6 6 6 12 0 0 0)
      (mkFreqFeatures 300 0 [("low", 0); ("mid", 0); ("high", 0)]) = Some a
    /\ VibrationAnalyzer.damage_level a = "healthy"
    /\ VibrationAnalyzer.fault_types a = [Spec.general_abnormality]
    /\ VibrationAnalyzer.recommendations a
       = ["System is operating normally. Continue routine monitoring."]
    /\ ~ Spec.recommendations_shape (VibrationAnalyzer.fault_types a)
           (VibrationAnalyzer.recommendations a).
Proof.
  unfold VibrationAnalyzer.analyze.
  rewrite fault_score_rms6.
  rewrite (detect_fault_rules _ _ 0 0) by reflexivity.
  assert (Hfaults : Spec.fault_rules
            (mkTimeFeatures 0 6 6 6 12 0 0 0)
            (mkFreqFeatures 300 0 [("low", 0); ("mid", 0); ("high", 0)]) 0 0
          = [Spec.general_abnormality]).
  { unfold Spec.fault_rules, Spec.bearing_rule, Spec.unbalance_rule,
      Spec.misalignment_rule, Spec.gear_rule, Spec.fired; simpl.
    destruct (gtb_spec 0 5); [lra|].
    destruct (ltb_spec 300 100); [lra|].
    destruct (gtb_spec 0 (0.5 * 0)); [lra|].
    destruct (ltb_spec 500 300); [lra|].
    destruct (gtb_spec 6 5); [|lra].
    reflexivity. }
  assert (Hlevel : VibrationAnalyzer._classify_damage_level 0.18 = "healthy").
  { unfold VibrationAnalyzer._classify_damage_level; simpl.
    destruct (leb_spec 0.0 0.18); [|lra].
    destruct (ltb_spec 0.18 0.2); [|lra].
    reflexivity. }
  rewrite Hfaults, Hlevel.
  eexists; split; [reflexivity|]; simpl.
  repeat split.
  intros (level_part & fault_part & Happ & Hlen & Hfaults').
  unfold Spec.distinct_types in Hfaults'; simpl in Hfaults'.
  apply (f_equal (@List.length string)) in Happ.
  rewrite length_app in Happ; simpl in Happ. lia.
Qed.

(** C10.  The recommendations of every analysis result are non-empty: the
    classifier always returns one of the five labels, ['critical'] when no
    interval of the table contains the score, and each of the five labels
    contributes at least one string. *)
Theorem C10_recommendations_nonempty :
  (forall s, In (VibrationAnalyzer._classify_damage_level s) Spec.labels)
  /\ (forall s,
        (forall e, In e Config.DAMAGE_LEVELS -> ~ Spec.contains e s) ->
        VibrationAnalyzer._classify_damage_level s = "critical")
  /\ (forall level,
        In level Spec.labels ->
        VibrationAnalyzer.level_recommendations level <> [])
  /\ (forall tf ff a,
        VibrationAnalyzer.analyze tf ff = Some a ->
        In (VibrationAnalyzer.damage_level a) Spec.labels
        /\ VibrationAnalyzer.recommendations a <> []).
Proof.
  assert (Hlevel : forall level,
             In level Spec.labels ->
             VibrationAnalyzer.level_recommendations level <> []).
  { intros level Hin Hnil.
    destruct (level_recommendations_length level Hin) as [H | H];
      rewrite Hnil in H; discriminate. }
  split; [exact classify_in_labels|].
  split; [intros s Hnone; exact (classify_loop_none _ s Hnone)|].
  split; [exact Hlevel|].
  intros tf ff a. unfold VibrationAnalyzer.analyze.
  destruct (VibrationAnalyzer._detect_fault_types tf ff) as [faults|];
    [|discriminate].
  intros Ha; injection Ha as <-; simpl.
  split; [apply classify_in_labels|].
  rewrite generate_recommendations_app.
  intros Hnil. apply app_eq_nil in Hnil. destruct Hnil as [Hnil _].
  exact (Hlevel _ (classify_in_labels _) Hnil).
Qed.

(** The analysis of the record with [rms = 6] has a recommendation. *)
Lemma C10_recommendations_nonempty_witness :
  exists a,
    VibrationAnalyzer.analyze
      (mkTimeFeatures 0 6 6 6 12 0 0 0)
      (mkFreqFeatures 300 0 [("low", 0); ("mid", 0); ("high", 0)]) = Some a
    /\ VibrationAnalyzer.recommendations a <> [].
Proof.
  eexists; split.
  - unfold VibrationAnalyzer.analyze.
    rewrite (detect_fault_rules _ _ 0 0) by reflexivity. reflexivity.
  - apply (proj2 (proj2 (proj2 C10_recommendations_nonempty))
             (mkTimeFeatures 0 6 6 6 12 0 0 0)
             (mkFreqFeatures 300 0 [("low", 0); ("mid", 0); ("high", 0)])).
    unfold VibrationAnalyzer.analyze.
    rewrite (detect_fault_rules _ _ 0 0) by reflexivity. reflexivity.
Defined.

(** ** Facts about lists of samples *)

Lemma np_sum_repeat (c : R) (n : nat) : Np.sum (repeat c n) = INR n * c.
Proof.
  unfold Np.sum; induction n as [|n IH].
  - simpl; lra.
  - rewrite S_INR; simpl; rewrite IH; lra.
Qed.

Lemma np_sum_zero (xs : list R) :
  (forall x, In x xs -> x = 0) -> Np.sum xs = 0.
Proof.
  unfold Np.sum; induction xs as [|x xs IH]; intros Hzero; simpl.
  - reflexivity.
  - rewrite (Hzero x) by (left; reflexivity).
    rewrite IH by (intros y Hy; apply Hzero; right; exact Hy). lra.
Qed.

Lemma map_constant {A B} (f : A -> B) (c : B) (xs : list A) :
  (forall x, In x xs -> f x = c) -> map f xs = repeat c (List.length xs).
Proof.
  induction xs as [|x xs IH]; intros Hc; simpl.
  - reflexivity.
  - rewrite (Hc x) by (left; reflexivity).
    rewrite IH by (intros y Hy; apply Hc; right; exact Hy). reflexivity.
Qed.

Lemma map_repeat_zero (f : R -> R) (n : nat) :
  f 0 = 0 -> map f (repeat 0 n) = repeat 0 n.
Proof.
  intros Hf. rewrite (map_constant f 0).
  - rewrite repeat_length; reflexivity.
  - intros x Hx; apply repeat_spec in Hx; subst x; exact Hf.
Qed.

Lemma np_mean_zeros (n : nat) : Np.mean (repeat 0 n) = 0.
Proof.
  unfold Np.mean. rewrite np_sum_repeat. unfold Rdiv; lra.
Qed.

Lemma np_square_zeros (n : nat) : Np.square (repeat 0 n) = repeat 0 n.
Proof. apply map_repeat_zero; lra. Qed.

Lemma np_abs_zeros (n : nat) : Np.abs (repeat 0 n) = repeat 0 n.
Proof. apply map_repeat_zero; apply Rabs_R0. Qed.

Lemma np_std_zeros (n : nat) : Np.std (repeat 0 n) = 0.
Proof.
  unfold Np.std; cbv zeta. rewrite np_mean_zeros.
  rewrite (map_repeat_zero (fun x => x - 0)) by lra.
  rewrite np_abs_zeros, np_square_zeros, np_mean_zeros. apply sqrt_0.
Qed.

Lemma fold_left_Rmax_zeros (n : nat) : fold_left Rmax (repeat 0 n) 0 = 0.
Proof.
  induction n as [|n IH]; simpl; [reflexivity|].
  rewrite Rmax_left by lra. exact IH.
Qed.

Lemma fold_left_Rmin_zeros (n : nat) : fold_left Rmin (repeat 0 n) 0 = 0.
Proof.
  induction n as [|n IH]; simpl; [reflexivity|].
  rewrite Rmin_left by lra. exact IH.
Qed.

Lemma np_max_zeros (n : nat) : (0 < n)%nat -> Np.max (repeat 0 n) = Some 0.
Proof.
  destruct n as [|n]; [lia|]; intros _; simpl.
  rewrite fold_left_Rmax_zeros; reflexivity.
Qed.

Lemma np_ptp_zeros (n : nat) : (0 < n)%nat -> Np.ptp (repeat 0 n) = Some 0.
Proof.
  destruct n as [|n]; [lia|]; intros _; unfold Np.ptp; simpl.
  rewrite fold_left_Rmax_zeros, fold_left_Rmin_zeros. f_equal; lra.
Qed.



Lemma np_max_some (xs : list R) : xs <> [] -> exists v, Np.max xs = Some v.
Proof. destruct xs; [congruence | intros _; eexists; reflexivity]. Qed.

Lemma np_ptp_some (xs : list R) : xs <> [] -> exists v, Np.ptp xs = Some v.
Proof. destruct xs; [congruence | intros _; eexists; reflexivity]. Qed.

(** ** Time-domain features *)



Lemma kurtosis_zero_std (data : list R) :
  Np.std data = 0 -> DataPreprocessor._kurtosis data = Some 0.
Proof.
  intros Hstd. unfold DataPreprocessor._kurtosis; cbv zeta.
  destruct (List.length data <? 4)%nat; [f_equal; lra|].
  rewrite Hstd. destruct (eqb_spec 0 0) as [_ | H]; [f_equal; lra | congruence].
Qed.

Lemma skewness_zero_std (data : list R) :
  Np.std data = 0 -> DataPreprocessor._skewness data = Some 0.
Proof.
  intros Hstd. unfold DataPreprocessor._skewness; cbv zeta.
  destruct (List.length data <? 3)%nat; [f_equal; lra|].
  rewrite Hstd. destruct (eqb_spec 0 0) as [_ | H]; [f_equal; lra | congruence].
Qed.

(** From four samples on, the divisors of the kurtosis are not 0: the
    estimator returns. *)
Lemma kurtosis_some (data : list R) :
  exists k, DataPreprocessor._kurtosis data = Some k.
Proof.
  unfold DataPreprocessor._kurtosis; cbv zeta.
  destruct (List.length data <? 4)%nat eqn:Hn; [eexists; reflexivity|].
  apply Nat.ltb_ge in Hn.
  destruct (Py.eqb (Np.std data) 0); [eexists; reflexivity|].
  rewrite !div_some; [eexists; reflexivity | |]; apply not_0_INR; nia.
Qed.

Lemma skewness_some (data : list R) :
  exists s, DataPreprocessor._skewness data = Some s.
Proof.
  unfold DataPreprocessor._skewness; cbv zeta.
  destruct (List.length data <? 3)%nat eqn:Hn; [eexists; reflexivity|].
  apply Nat.ltb_ge in Hn.
  destruct (Py.eqb (Np.std data) 0); [eexists; reflexivity|].
  rewrite div_some; [eexists; reflexivity|]. apply not_0_INR; nia.
Qed.

(** Every time-domain feature of a zero waveform is 0. *)
Lemma time_features_zeros (n : nat) :
  (0 < n)%nat ->
  DataPreprocessor._extract_time_features (repeat 0 n)
  = Some (mkTimeFeatures 0 0 0 0 0 0 0 0).
Proof.
  intros Hn. unfold DataPreprocessor._extract_time_features.
  rewrite np_abs_zeros, (np_max_zeros n Hn), (np_ptp_zeros n Hn).
  rewrite np_square_zeros, np_mean_zeros, np_std_zeros.
  rewrite (kurtosis_zero_std _ (np_std_zeros n)).
  rewrite (skewness_zero_std _ (np_std_zeros n)).
  rewrite sqrt_0.
  destruct (gtb_spec 0 0) as [H | _]; [lra | reflexivity].
Qed.



Lemma time_features_some (data : list R) :
  data <> [] ->
  exists tf, DataPreprocessor._extract_time_features data = Some tf.
Proof.
  intros Hne. unfold DataPreprocessor._extract_time_features.
  destruct (np_max_some (Np.abs data)) as [pk ->].
  { destruct data; [congruence | discriminate]. }
  destruct (np_ptp_some data Hne) as [p2p ->].
  destruct (kurtosis_some data) as [k ->].
  destruct (skewness_some data) as [s ->].
  eexists; reflexivity.
Qed.

(** ** Frequency-domain features *)

(** Boolean indexing by the mask of a band selects the bins whose squares
    make up the power of the band. *)
Lemma select_band (low high : R) (freq magnitude : list R) :
  List.length freq = List.length magnitude ->
  exists sel,
    Np.select magnitude
      (map (fun f => Py.geb f low && Py.ltb f high) freq) = Some sel
    /\ Np.sum (Np.square sel) = Spec.band_power low high freq magnitude.
Proof.
  revert magnitude; induction freq as [|f freq IH];
    intros [|m magnitude] Hlen; simpl in Hlen; try discriminate.
  - exists []; split; reflexivity.
  - destruct (IH magnitude ltac:(lia)) as (sel & Hsel & Hsum).
    cbn [map Np.select]. rewrite Hsel.
    eexists; split; [reflexivity|].
    unfold Spec.band_power, Spec.in_band in *. cbn [combine map fold_right].
    unfold Py.geb. destruct (Py.leb low f && Py.ltb f high).
    + unfold Np.sum, Np.square in *. cbn [map fold_right].
      rewrite Hsum; reflexivity.
    + rewrite Hsum. lra.
Qed.

(** The loop over the band table yields the three band powers, in the
    order of the table. *)
Lemma compute_band_powers_spec (freq magnitude : list R) :
  List.length freq = List.length magnitude ->
  DataPreprocessor._compute_band_powers freq magnitude
  = Some [("low", Spec.band_power 0 500 freq magnitude);
          ("mid", Spec.band_power 500 2000 freq magnitude);
          ("high", Spec.band_power 2000 5000 freq magnitude)].
Proof.
  intros Hlen. unfold DataPreprocessor._compute_band_powers; simpl.
  destruct (select_band 0 500 freq magnitude Hlen) as (s1 & -> & ->).
  destruct (select_band 500 2000 freq magnitude Hlen) as (s2 & -> & ->).
  destruct (select_band 2000 5000 freq magnitude Hlen) as (s3 & -> & ->).
  reflexivity.
Qed.

Lemma argmax_from_bound (xs : list R) :
  forall (i best : nat) (bestv : R),
    (best < i)%nat ->
    (Np.argmax_from xs i best bestv < i + List.length xs)%nat.
Proof.
  induction xs as [|x xs IH]; intros i best bestv Hbest; simpl.
  - lia.
  - destruct (Py.ltb bestv x).
    + specialize (IH (S i) i x ltac:(lia)). lia.
    + specialize (IH (S i) best bestv ltac:(lia)). lia.
Qed.

Lemma argmax_some (xs : list R) :
  xs <> [] ->
  exists i, Np.argmax xs = Some i /\ (i < List.length xs)%nat.
Proof.
  destruct xs as [|x xs]; [congruence|]; intros _.
  eexists; split; [reflexivity|].
  pose proof (argmax_from_bound xs 1 0 x ltac:(lia)). simpl; lia.
Qed.

Lemma argmax_from_zeros (n i best : nat) :
  Np.argmax_from (repeat 0 n) i best 0 = best.
Proof.
  revert i; induction n as [|n IH]; intros i; simpl.
  - reflexivity.
  - destruct (ltb_spec 0 0) as [H | _]; [lra | apply IH].
Qed.

Lemma argmax_zeros (n : nat) :
  (0 < n)%nat -> Np.argmax (repeat 0 n) = Some 0%nat.
Proof.
  destruct n as [|n]; [lia|]; intros _; simpl.
  rewrite argmax_from_zeros; reflexivity.
Qed.

Lemma spectrum_length (data : list R) :
  List.length (Spec.spectrum data) = (List.length data / 2 + 1)%nat.
Proof. unfold Spec.spectrum; rewrite length_map, length_seq; reflexivity. Qed.

Lemma bin_frequencies_length (sr : R) (data : list R) :
  List.length (Spec.bin_frequencies sr data)
  = (List.length data / 2 + 1)%nat.
Proof.
  unfold Spec.bin_frequencies. rewrite length_map, length_seq; reflexivity.
Qed.

(** For a positive length and a non-zero sampling rate, [rfftfreq] returns
    the frequencies [k * sampling_rate / n]. *)
Lemma rfftfreq_bin_frequencies (sr : R) (data : list R) :
  sr <> 0 -> data <> [] ->
  Np.rfftfreq (List.length data) (1 / sr) = Some (Spec.bin_frequencies sr data).
Proof.
  intros Hsr Hne. unfold Np.rfftfreq, Spec.bin_frequencies.
  assert (Hn : INR (List.length data) <> 0).
  { apply not_0_INR. destruct data; [congruence | discriminate]. }
  rewrite div_some.
  - f_equal. apply map_ext; intros k. replace 1.0 with 1 by lra. field.
    split; assumption.
  - intros H. apply Rmult_integral in H. destruct H as [H | H]; [contradiction|].
    unfold Rdiv in H. rewrite Rmult_1_l in H.
    exact (Rinv_neq_0_compat sr Hsr H).
Qed.

Lemma spectrum_nonempty (data : list R) : Spec.spectrum data <> [].
Proof.
  intros H. apply (f_equal (@List.length R)) in H.
  rewrite spectrum_length in H. simpl in H. lia.
Qed.

(** The frequency features of a non-empty waveform: the frequency of the
    first bin of maximal magnitude, the power of the whole spectrum and
    the powers of the three bands. *)
Lemma extract_frequency_features_spec (sr : R) (data : list R) :
  sr <> 0 -> data <> [] ->
  exists peak_idx peak_freq,
    Np.argmax (Spec.spectrum data) = Some peak_idx
    /\ nth_error (Spec.bin_frequencies sr data) peak_idx = Some peak_freq
    /\ DataPreprocessor._extract_frequency_features sr data
       = Some {| peak_frequency := peak_freq;
                 spectral_power := Np.sum (Np.square (Spec.spectrum data));
                 frequency_bands :=
                   [("low", Spec.band_power 0 500
                              (Spec.bin_frequencies sr data)
                              (Spec.spectrum data));
                    ("mid", Spec.band_power 500 2000
                              (Spec.bin_frequencies sr data)
                              (Spec.spectrum data));
                    ("high", Spec.band_power 2000 5000
                               (Spec.bin_frequencies sr data)
                               (Spec.spectrum data))] |}.
Proof.
  intros Hsr Hne.
  destruct (argmax_some _ (spectrum_nonempty data)) as (peak_idx & Hidx & Hlt).
  assert (Hfreq : exists peak_freq,
             nth_error (Spec.bin_frequencies sr data) peak_idx = Some peak_freq).
  { destruct (nth_error (Spec.bin_frequencies sr data) peak_idx) eqn:Hnth.
    - eexists; reflexivity.
    - apply nth_error_None in Hnth.
      rewrite bin_frequencies_length in Hnth.
      rewrite spectrum_length in Hlt. lia. }
  destruct Hfreq as (peak_freq & Hfreq).
  exists peak_idx, peak_freq. split; [exact Hidx|]. split; [exact Hfreq|].
  unfold DataPreprocessor._extract_frequency_features.
  assert (Hrfft : Np.rfft data
                  = Some (map (Np.dft_bin data)
                            (seq 0 (List.length data / 2 + 1))))
    by (destruct data; [congruence | reflexivity]).
  rewrite Hrfft; cbv zeta. rewrite map_map.
  change (map (fun x => Np.cabs (Np.dft_bin data x))
            (seq 0 (List.length data / 2 + 1))) with (Spec.spectrum data).
  rewrite (div_some 1 sr Hsr), (rfftfreq_bin_frequencies sr data Hsr Hne).
  rewrite Hidx, Hfreq.
  rewrite compute_band_powers_spec; [reflexivity|].
  rewrite bin_frequencies_length, spectrum_length; reflexivity.
Qed.




(** Boolean indexing returns when the mask has the length of the array. *)
Lemma select_some (xs : list R) (mask : list bool) :
  List.length mask = List.length xs ->
  exists sel, Np.select xs mask = Some sel.
Proof.
  revert mask; induction xs as [|x xs IH]; intros [|m mask] Hlen;
    simpl in Hlen; try discriminate.
  - exists []; reflexivity.
  - destruct (IH mask ltac:(lia)) as (sel & Hsel).
    cbn [Np.select]. rewrite Hsel. eexists; reflexivity.
Qed.

(** The masks of the three bands select disjoint sets of bins, which
    together are the bins selected by the mask of [[0, 5000)]. *)
Lemma select_bands_partition (freq magnitude low mid high inside : list R) :
  Np.select magnitude (map (fun f => Py.geb f 0 && Py.ltb f 500) freq)
  = Some low ->
  Np.select magnitude (map (fun f => Py.geb f 500 && Py.ltb f 2000) freq)
  = Some mid ->
  Np.select magnitude (map (fun f => Py.geb f 2000 && Py.ltb f 5000) freq)
  = Some high ->
  Np.select magnitude (map (fun f => Py.geb f 0 && Py.ltb f 5000) freq)
  = Some inside ->
  Permutation (low ++ mid ++ high) inside.
Proof.
  revert magnitude low mid high inside;
    induction freq as [|f freq IH];
    intros [|m magnitude] low mid high inside; cbn [map Np.select];
    try discriminate.
  - intros H1 H2 H3 H4.
    injection H1 as <-; injection H2 as <-; injection H3 as <-;
      injection H4 as <-. constructor.
  - destruct (Np.select magnitude
                (map (fun f => Py.geb f 0 && Py.ltb f 500) freq))
      as [low'|] eqn:Hlow; [|discriminate].
    destruct (Np.select magnitude
                (map (fun f => Py.geb f 500 && Py.ltb f 2000) freq))
      as [mid'|] eqn:Hmid; [|discriminate].
    destruct (Np.select magnitude
                (map (fun f => Py.geb f 2000 && Py.ltb f 5000) freq))
      as [high'|] eqn:Hhigh; [|discriminate].
    destruct (Np.select magnitude
                (map (fun f => Py.geb f 0 && Py.ltb f 5000) freq))
      as [inside'|] eqn:Hinside; [|discriminate].
    specialize (IH magnitude low' mid' high' inside' Hlow Hmid Hhigh Hinside).
    intros H1 H2 H3 H4.
    injection H1 as <-; injection H2 as <-; injection H3 as <-;
      injection H4 as <-.
    destruct (geb_spec f 0), (ltb_spec f 500), (geb_spec f 500),
      (ltb_spec f 2000), (geb_spec f 2000), (ltb_spec f 5000);
      cbn [andb]; try lra; try exact IH.
    + cbn [app]. apply perm_skip; exact IH.
    + apply Permutation_sym, Permutation_cons_app, Permutation_sym; exact IH.
    + rewrite app_assoc.
      apply Permutation_sym, Permutation_cons_app, Permutation_sym.
      rewrite <- app_assoc; exact IH.
Qed.

(** The loop over the band table, in terms of the three selections. *)
Lemma compute_band_powers_selections (freq magnitude low mid high : list R) :
  Np.select magnitude (map (fun f => Py.geb f 0 && Py.ltb f 500) freq)
  = Some low ->
  Np.select magnitude (map (fun f => Py.geb f 500 && Py.ltb f 2000) freq)
  = Some mid ->
  Np.select magnitude (map (fun f => Py.geb f 2000 && Py.ltb f 5000) freq)
  = Some high ->
  DataPreprocessor._compute_band_powers freq magnitude
  = Some [("low", Np.sum (Np.square low));
          ("mid", Np.sum (Np.square mid));
          ("high", Np.sum (Np.square high))].
Proof.
  intros Hlow Hmid Hhigh.
  unfold DataPreprocessor._compute_band_powers; simpl.
  rewrite Hlow, Hmid, Hhigh. reflexivity.
Qed.

(** What [_extract_frequency_features] hands to [_compute_band_powers]
    and sums into [spectral_power]. *)
Lemma extract_frequency_features_arrays (sr : R) (data : list R)
    (ff : FreqFeatures) :
  DataPreprocessor._extract_frequency_features sr data = Some ff ->
  exists fft_vals d fft_freq,
    Np.rfft data = Some fft_vals
    /\ Py.div 1 sr = Some d
    /\ Np.rfftfreq (List.length data) d = Some fft_freq
    /\ spectral_power ff = Np.sum (Np.square (map Np.cabs fft_vals))
    /\ DataPreprocessor._compute_band_powers fft_freq (map Np.cabs fft_vals)
       = Some (frequency_bands ff).
Proof.
  unfold DataPreprocessor._extract_frequency_features.
  destruct (Np.rfft data) as [fft_vals|] eqn:Hrfft; [|discriminate].
  destruct (Py.div 1 sr) as [d|] eqn:Hd; [|discriminate].
  destruct (Np.rfftfreq (List.length data) d) as [fft_freq|] eqn:Hfreq;
    [|discriminate].
  destruct (Np.argmax (map Np.cabs fft_vals)) as [peak_idx|]; [|discriminate].
  destruct (nth_error fft_freq peak_idx) as [peak_freq|]; [|discriminate].
  destruct (DataPreprocessor._compute_band_powers fft_freq
              (map Np.cabs fft_vals)) as [band_powers|] eqn:Hbands;
    [|discriminate].
  intros H; injection H as <-.
  exists fft_vals, d, fft_freq.
  split; [reflexivity|]. split; [reflexivity|]. split; [exact Hfreq|].
  split; [reflexivity | exact Hbands].
Qed.

(** C6, amended.  [spectral_power] is the sum of the squared magnitudes of
    all bins of the one-sided spectrum, and the band powers are what
    [_compute_band_powers] returns on the bin frequencies and magnitudes.
    For all arrays of frequencies and magnitudes of one length, the three
    band powers are the sums of the squared magnitudes selected by the
    half-open masks of low [[0,500)], mid [[500,2000)] and high
    [[2000,5000)]; the three selections are disjoint and together are
    exactly the bins whose frequency lies in [[0,5000)]. *)
Theorem C6_band_partition :
  (forall sr data ff,
      DataPreprocessor._extract_frequency_features sr data = Some ff ->
      exists fft_vals d fft_freq,
        Np.rfft data = Some fft_vals
        /\ Py.div 1 sr = Some d
        /\ Np.rfftfreq (List.length data) d = Some fft_freq
        /\ spectral_power ff = Np.sum (Np.square (map Np.cabs fft_vals))
        /\ DataPreprocessor._compute_band_powers fft_freq
             (map Np.cabs fft_vals) = Some (frequency_bands ff))
  /\ (forall freq magnitude,
        List.length freq = List.length magnitude ->
        exists low mid high inside,
          Np.select magnitude
            (map (fun f => Py.geb f 0 && Py.ltb f 500) freq) = Some low
          /\ Np.select magnitude
               (map (fun f => Py.geb f 500 && Py.ltb f 2000) freq) = Some mid
          /\ Np.select magnitude
               (map (fun f => Py.geb f 2000 && Py.ltb f 5000) freq) = Some high
          /\ DataPreprocessor._compute_band_powers freq magnitude
             = Some [("low", Np.sum (Np.square low));
                     ("mid", Np.sum (Np.square mid));
                     ("high", Np.sum (Np.square high))]
          /\ Np.select magnitude
               (map (fun f => Py.geb f 0 && Py.ltb f 5000) freq) = Some inside
          /\ Permutation (low ++ mid ++ high) inside).
Proof.
  split; [exact extract_frequency_features_arrays|].
  intros freq magnitude Hlen.
  destruct (select_some magnitude
              (map (fun f => Py.geb f 0 && Py.ltb f 500) freq))
    as (low & Hlow); [rewrite length_map; exact Hlen|].
  destruct (select_some magnitude
              (map (fun f => Py.geb f 500 && Py.ltb f 2000) freq))
    as (mid & Hmid); [rewrite length_map; exact Hlen|].
  destruct (select_some magnitude
              (map (fun f => Py.geb f 2000 && Py.ltb f 5000) freq))
    as (high & Hhigh); [rewrite length_map; exact Hlen|].
  destruct (select_some magnitude
              (map (fun f => Py.geb f 0 && Py.ltb f 5000) freq))
    as (inside & Hinside); [rewrite length_map; exact Hlen|].
  exists low, mid, high, inside.
  split; [exact Hlow|]. split; [exact Hmid|]. split; [exact Hhigh|].
  split; [exact (compute_band_powers_selections _ _ _ _ _ Hlow Hmid Hhigh)|].
  split; [exact Hinside|].
  exact (select_bands_partition _ _ _ _ _ _ Hlow Hmid Hhigh Hinside).
Qed.

(** Five bins, at 0, 300, 1000, 3000 and 6000 Hz: the first two are in the
    low band, the last one in no band. *)
Lemma C6_band_partition_witness :
  exists low mid high inside,
    Np.select [1; 2; 3; 4; 5]
      (map (fun f => Py.geb f 0 && Py.ltb f 500) [0; 300; 1000; 3000; 6000])
    = Some low
    /\ Np.select [1; 2; 3; 4; 5]
         (map (fun f => Py.geb f 500 && Py.ltb f 2000) [0; 300; 1000; 3000; 6000])
       = Some mid
    /\ Np.select [1; 2; 3; 4; 5]
         (map (fun f => Py.geb f 2000 && Py.ltb f 5000) [0; 300; 1000; 3000; 6000])
       = Some high
    /\ DataPreprocessor._compute_band_powers
         [0; 300; 1000; 3000; 6000] [1; 2; 3; 4; 5]
       = Some [("low", Np.sum (Np.square low));
               ("mid", Np.sum (Np.square mid));
               ("high", Np.sum (Np.square high))]
    /\ Np.select [1; 2; 3; 4; 5]
         (map (fun f => Py.geb f 0 && Py.ltb f 5000) [0; 300; 1000; 3000; 6000])
       = Some inside
    /\ Permutation (low ++ mid ++ high) inside.
Proof.
  apply (proj2 C6_band_partition [0; 300; 1000; 3000; 6000] [1; 2; 3; 4; 5]).
  reflexivity.
Defined.

(** *** The zero waveform *)

Lemma dft_bin_zeros (n k : nat) : Np.dft_bin (repeat 0 n) k = (0, -0).
Proof.
  unfold Np.dft_bin; cbv zeta.
  f_equal; [|f_equal]; apply np_sum_zero; intros y Hy;
    apply in_map_iff in Hy; destruct Hy as ([i x] & <- & Hin);
    apply in_combine_r, repeat_spec in Hin; subst x; lra.
Qed.

Lemma spectrum_zeros (n : nat) :
  Spec.spectrum (repeat 0 n) = repeat 0 (n / 2 + 1).
Proof.
  unfold Spec.spectrum. rewrite repeat_length.
  rewrite (map_constant _ 0).
  - rewrite length_seq; reflexivity.
  - intros k _. rewrite dft_bin_zeros. unfold Np.cabs; simpl.
    replace (0 * (0 * 1) + - 0 * (- 0 * 1)) with 0 by lra. apply sqrt_0.
Qed.

Lemma band_power_zeros (low high : R) (freq : list R) (m : nat) :
  Spec.band_power low high freq (repeat 0 m) = 0.
Proof.
  unfold Spec.band_power. apply np_sum_zero. intros y Hy.
  apply in_map_iff in Hy. destruct Hy as ([f x] & <- & Hin).
  apply in_combine_r, repeat_spec in Hin; subst x.
  destruct (Spec.in_band low high f); lra.
Qed.

Lemma bin_frequencies_first (sr : R) (data : list R) (f : R) :
  nth_error (Spec.bin_frequencies sr data) 0 = Some f -> f = 0.
Proof.
  unfold Spec.bin_frequencies.
  rewrite Nat.add_1_r; cbn [seq map nth_error].
  intros H; injection H as <-. simpl; unfold Rdiv; lra.
Qed.

(** The frequency features of a zero waveform: the peak is the first bin,
    at 0 Hz, and there is no power anywhere. *)
Lemma frequency_features_zeros (sr : R) (n : nat) :
  sr <> 0 -> (0 < n)%nat ->
  DataPreprocessor._extract_frequency_features sr (repeat 0 n)
  = Some (mkFreqFeatures 0 0 [("low", 0); ("mid", 0); ("high", 0)]).
Proof.
  intros Hsr Hn.
  assert (Hne : repeat 0 n <> []) by (destruct n; [lia | discriminate]).
  destruct (extract_frequency_features_spec sr _ Hsr Hne)
    as (peak_idx & peak_freq & Hidx & Hfreq & ->).
  rewrite spectrum_zeros in *.
  rewrite argmax_zeros in Hidx by lia. injection Hidx as <-.
  apply bin_frequencies_first in Hfreq; subst peak_freq.
  rewrite !band_power_zeros, np_square_zeros, np_sum_repeat.
  f_equal; f_equal; lra.
Qed.

(** ** The analysis of a feature pair *)

Lemma analyze_inv (tf : TimeFeatures) (ff : FreqFeatures)
    (a : VibrationAnalyzer.Analysis) :
  VibrationAnalyzer.analyze tf ff = Some a ->
  VibrationAnalyzer.fault_score a = VibrationAnalyzer._calculate_fault_score tf ff
  /\ VibrationAnalyzer.damage_level a
     = VibrationAnalyzer._classify_damage_level
         (VibrationAnalyzer._calculate_fault_score tf ff)
  /\ VibrationAnalyzer._detect_fault_types tf ff
     = Some (VibrationAnalyzer.fault_types a)
  /\ VibrationAnalyzer.recommendations a
     = VibrationAnalyzer._generate_recommendations
         (VibrationAnalyzer.damage_level a) (VibrationAnalyzer.fault_types a)
  /\ VibrationAnalyzer.time_features a = tf
  /\ VibrationAnalyzer.freq_features a = ff.
Proof.
  unfold VibrationAnalyzer.analyze.
  destruct (VibrationAnalyzer._detect_fault_types tf ff) as [faults|];
    [|discriminate].
  intros H; injection H as <-; simpl. repeat split; reflexivity.
Qed.

Lemma analyze_some (tf : TimeFeatures) (ff : FreqFeatures) (high low : R) :
  Py.get (frequency_bands ff) "high" = Some high ->
  Py.get (frequency_bands ff) "low" = Some low ->
  exists a, VibrationAnalyzer.analyze tf ff = Some a.
Proof.
  intros Hhigh Hlow. unfold VibrationAnalyzer.analyze.
  rewrite (detect_fault_rules tf ff high low Hhigh Hlow).
  eexists; reflexivity.
Qed.

(** The zero features score 0. *)
Lemma fault_score_zeros :
  VibrationAnalyzer._calculate_fault_score
    (mkTimeFeatures 0 0 0 0 0 0 0 0)
    (mkFreqFeatures 0 0 [("low", 0); ("mid", 0); ("high", 0)]) = 0.
Proof.
  unfold VibrationAnalyzer._calculate_fault_score, Py.sum; simpl.
  rewrite !min_Rmin, Rabs_R0.
  destruct (gtb_spec (0 + 0 + 0 + 0) 0) as [H | _]; [lra|].
  replace (0 / 10.0) with 0 by lra.
  replace 1.0 with 1 by lra.
  rewrite (Rmin_left 0 1) by lra.
  rewrite Rmin_left; lra.
Qed.

(** The zero features are analysed as healthy, and the peak at 0 Hz fires
    the unbalance rule, alone. *)
Lemma analyze_zeros :
  VibrationAnalyzer.analyze
    (mkTimeFeatures 0 0 0 0 0 0 0 0)
    (mkFreqFeatures 0 0 [("low", 0); ("mid", 0); ("high", 0)])
  = Some (VibrationAnalyzer.mkAnalysis 0 "healthy" false [Spec.unbalance]
            ["System is operating normally. Continue routine monitoring.";
             "Check rotor balance and perform balancing if necessary."]
            (mkTimeFeatures 0 0 0 0 0 0 0 0)
            (mkFreqFeatures 0 0 [("low", 0); ("mid", 0); ("high", 0)])).
Proof.
  unfold VibrationAnalyzer.analyze.
  rewrite fault_score_zeros.
  rewrite (detect_fault_rules _ _ 0 0) by reflexivity.
  assert (Hfaults : Spec.fault_rules
            (mkTimeFeatures 0 0 0 0 0 0 0 0)
            (mkFreqFeatures 0 0 [("low", 0); ("mid", 0); ("high", 0)]) 0 0
          = [Spec.unbalance]).
  { unfold Spec.fault_rules, Spec.bearing_rule, Spec.unbalance_rule,
      Spec.misalignment_rule, Spec.gear_rule, Spec.fired; simpl.
    destruct (gtb_spec 0 5); [lra|].
    destruct (ltb_spec 0 100); [|lra].
    destruct (gtb_spec 0 (0.5 * 0)); [lra|].
    destruct (ltb_spec 500 0); [lra|].
    reflexivity. }
  assert (Hlevel : VibrationAnalyzer._classify_damage_level 0 = "healthy").
  { unfold VibrationAnalyzer._classify_damage_level; simpl.
    destruct (leb_spec 0.0 0); [|lra].
    destruct (ltb_spec 0 0.2); [|lra].
    reflexivity. }
  rewrite Hfaults, Hlevel.
  unfold VibrationAnalyzer.fault_threshold, Config.FAULT_THRESHOLD.
  destruct (gtb_spec 0 0.5); [lra|].
  reflexivity.
Qed.

(** ** Conditioning and the whole pipeline *)

Section WithFilter.

Variable sampling_rate : R.
Variable butter : nat -> R -> R -> option (list R * list R).
Variable filtfilt : list R -> list R -> list R -> option (list R).

(** The sampling rate is not zero. *)
Hypothesis sampling_rate_nonzero : sampling_rate <> 0.

(** What is assumed of [scipy.signal.filtfilt]: when it returns, its output
    has the shape of its input; and, being a linear filter, it maps the
    zero sequence to itself. *)
Hypothesis filtfilt_length :
  forall b a x y, filtfilt b a x = Some y -> List.length y = List.length x.
Hypothesis filtfilt_zero :
  forall b a n y, filtfilt b a (repeat 0 n) = Some y -> y = repeat 0 n.

Lemma condition_cases (data : list R) :
  let z := map (fun x => x - Np.mean data) data in
  DataPreprocessor.condition sampling_rate butter filtfilt data
  = Some (if (100 <? List.length data)%nat
          then match DataPreprocessor.try_filter butter filtfilt
                       (10 / (sampling_rate / 2))
                       (Py.min (5000 / (sampling_rate / 2)) 0.99) z with
               | Some y => y
               | None => z
               end
          else z).
Proof.
  unfold DataPreprocessor.condition, DataPreprocessor.try_assign; cbv zeta.
  rewrite length_map.
  destruct (100 <? List.length data)%nat; [|reflexivity].
  rewrite !div_some by lra. reflexivity.
Qed.

Lemma try_filter_length (low high : R) (x y : list R) :
  DataPreprocessor.try_filter butter filtfilt low high x = Some y ->
  List.length y = List.length x.
Proof.
  unfold DataPreprocessor.try_filter.
  destruct (butter 4 low high) as [[b a]|]; [|discriminate].
  apply filtfilt_length.
Qed.

Lemma try_filter_zero (low high : R) (n : nat) (y : list R) :
  DataPreprocessor.try_filter butter filtfilt low high (repeat 0 n) = Some y ->
  y = repeat 0 n.
Proof.
  unfold DataPreprocessor.try_filter.
  destruct (butter 4 low high) as [[b a]|]; [|discriminate].
  apply filtfilt_zero.
Qed.

Lemma condition_length (data y : list R) :
  DataPreprocessor.condition sampling_rate butter filtfilt data = Some y ->
  List.length y = List.length data.
Proof.
  rewrite condition_cases; cbv zeta. intros H; injection H as <-.
  destruct (100 <? List.length data)%nat; [|apply length_map].
  destruct (DataPreprocessor.try_filter _ _ _ _ _) as [y|] eqn:Hy;
    [|apply length_map].
  rewrite (try_filter_length _ _ _ _ Hy). apply length_map.
Qed.

(** The zero sequence is conditioned to itself. *)
Lemma condition_zeros (n : nat) :
  DataPreprocessor.condition sampling_rate butter filtfilt (repeat 0 n)
  = Some (repeat 0 n).
Proof.
  rewrite condition_cases; cbv zeta.
  rewrite np_mean_zeros, (map_repeat_zero (fun x => x - 0)) by lra.
  rewrite repeat_length.
  destruct (100 <? n)%nat; [|reflexivity].
  destruct (DataPreprocessor.try_filter _ _ _ _ _) as [y|] eqn:Hy;
    [|reflexivity].
  rewrite (try_filter_zero _ _ _ _ Hy). reflexivity.
Qed.

(** C7.  At a non-zero sampling rate, conditioning returns for every
    sequence: the result has the length of the input; it is the zero-mean
    sequence when the length is at most 100 and when the filter design or
    the filter raises, and the filtered zero-mean sequence otherwise. *)
Theorem C7_condition_total (data : list R) :
  let z := map (fun x => x - Np.mean data) data in
  let filtered :=
    DataPreprocessor.try_filter butter filtfilt
      (10 / (sampling_rate / 2))
      (Py.min (5000 / (sampling_rate / 2)) 0.99) z in
  exists y,
    DataPreprocessor.condition sampling_rate butter filtfilt data = Some y
    /\ List.length y = List.length data
    /\ ((List.length data <= 100)%nat -> y = z)
    /\ ((100 < List.length data)%nat -> forall y', filtered = Some y' -> y = y')
    /\ ((100 < List.length data)%nat -> filtered = None -> y = z).
Proof.
  intros z filtered.
  pose proof (condition_cases data) as Hc; cbv zeta in Hc.
  fold z in Hc; fold filtered in Hc.
  eexists; split; [exact Hc|].
  split; [exact (condition_length data _ Hc)|].
  split; [|split].
  - intros Hle. apply Nat.ltb_ge in Hle. rewrite Hle. reflexivity.
  - intros Hlt y' Hy'. apply Nat.ltb_lt in Hlt. rewrite Hlt, Hy'. reflexivity.
  - intros Hlt Hnone. apply Nat.ltb_lt in Hlt. rewrite Hlt, Hnone. reflexivity.
Qed.

(** *** The pipeline *)

Lemma preprocess_inv (data : list R) (p : DataPreprocessor.Processed) :
  DataPreprocessor.preprocess sampling_rate butter filtfilt data = Some p ->
  exists y,
    DataPreprocessor.condition sampling_rate butter filtfilt data = Some y
    /\ DataPreprocessor._extract_time_features y
       = Some (DataPreprocessor.time_features p)
    /\ DataPreprocessor._extract_frequency_features sampling_rate y
       = Some (DataPreprocessor.freq_features p).
Proof.
  unfold DataPreprocessor.preprocess.
  destruct (DataPreprocessor.condition _ _ _ data) as [y|]; [|discriminate].
  destruct (DataPreprocessor._extract_time_features y) as [tf|] eqn:Htf;
    [|discriminate].
  destruct (DataPreprocessor._extract_frequency_features sampling_rate y)
    as [ff|] eqn:Hff; [|discriminate].
  intros H; injection H as <-. exists y.
  split; [reflexivity|]. split; [exact Htf | exact Hff].
Qed.

Lemma run_inv (data : list R) (a : VibrationAnalyzer.Analysis) :
  Pipeline.run sampling_rate butter filtfilt data = Some a ->
  exists p,
    DataPreprocessor.preprocess sampling_rate butter filtfilt data = Some p
    /\ VibrationAnalyzer.analyze (DataPreprocessor.time_features p)
         (DataPreprocessor.freq_features p) = Some a.
Proof.
  unfold Pipeline.run.
  destruct (DataPreprocessor.preprocess _ _ _ data) as [p|]; [|discriminate].
  intros H; exists p; split; [reflexivity | exact H].
Qed.

(** Once conditioning has produced a non-empty waveform, the pipeline
    returns a result, whose time features are those of the waveform. *)
Lemma run_of_condition (data y : list R) :
  DataPreprocessor.condition sampling_rate butter filtfilt data = Some y ->
  y <> [] ->
  exists a tf,
    Pipeline.run sampling_rate butter filtfilt data = Some a
    /\ DataPreprocessor._extract_time_features y = Some tf
    /\ VibrationAnalyzer.time_features a = tf.
Proof.
  intros Hy Hyne. unfold Pipeline.run, DataPreprocessor.preprocess.
  rewrite Hy.
  destruct (time_features_some y Hyne) as [tf Htf]. rewrite Htf.
  destruct (extract_frequency_features_spec sampling_rate y
              sampling_rate_nonzero Hyne)
    as (peak_idx & peak_freq & _ & _ & ->).
  cbn [DataPreprocessor.time_features DataPreprocessor.freq_features].
  match goal with
  | |- exists a tf', VibrationAnalyzer.analyze ?t ?f = _ /\ _ =>
      destruct (analyze_some t f _ _ eq_refl eq_refl) as [a Ha]
  end.
  exists a, tf. split; [exact Ha|]. split; [reflexivity|].
  apply (analyze_inv _ _ a Ha).
Qed.

(** The pipeline returns a result for every non-empty sequence. *)
Lemma run_some (data : list R) :
  data <> [] ->
  exists a, Pipeline.run sampling_rate butter filtfilt data = Some a.
Proof.
  intros Hne.
  destruct (DataPreprocessor.condition sampling_rate butter filtfilt data)
    as [y|] eqn:Hy.
  2:{ rewrite condition_cases in Hy; discriminate. }
  assert (Hyne : y <> []).
  { pose proof (condition_length data y Hy) as Hlen. intros ->.
    destruct data; simpl in Hlen; [congruence | discriminate]. }
  destruct (run_of_condition data y Hy Hyne) as (a & _ & Ha & _).
  exists a; exact Ha.
Qed.




(** The zero sequence, of any length, is analysed as the zero features
    are. *)
Lemma run_zeros (n : nat) :
  (0 < n)%nat ->
  Pipeline.run sampling_rate butter filtfilt (repeat 0 n)
  = Some (VibrationAnalyzer.mkAnalysis 0 "healthy" false [Spec.unbalance]
            ["System is operating normally. Continue routine monitoring.";
             "Check rotor balance and perform balancing if necessary."]
            (mkTimeFeatures 0 0 0 0 0 0 0 0)
            (mkFreqFeatures 0 0 [("low", 0); ("mid", 0); ("high", 0)])).
Proof.
  intros Hn. unfold Pipeline.run, DataPreprocessor.preprocess.
  rewrite condition_zeros, (time_features_zeros n Hn),
    (frequency_features_zeros sampling_rate n sampling_rate_nonzero Hn).
  cbn [DataPreprocessor.time_features DataPreprocessor.freq_features].
  exact analyze_zeros.
Qed.


(** C4, amended.  For the all-zero signal of length 1000, every
    time-domain feature is 0, the fault score is 0, the damage level is
    healthy, and the detected fault types are the single hypothesis
    unbalance: the peak of the zero spectrum is its first bin, at 0 Hz,
    which is below 100 Hz. *)
Theorem C4_zero_signal :
  exists a,
    Pipeline.run sampling_rate butter filtfilt (repeat 0 1000) = Some a
    /\ VibrationAnalyzer.time_features a = mkTimeFeatures 0 0 0 0 0 0 0 0
    /\ peak_frequency (VibrationAnalyzer.freq_features a) = 0
    /\ VibrationAnalyzer.fault_score a = 0
    /\ VibrationAnalyzer.damage_level a = "healthy"
    /\ VibrationAnalyzer.fault_types a = [Spec.unbalance].
Proof.
  eexists; split; [apply (run_zeros 1000); lia|].
  repeat split; reflexivity.
Qed.

End WithFilter.

(** *** Instances for the pass-through filter *)

Lemma sampling_rate_nonzero : Config.SAMPLING_RATE <> 0.
Proof. unfold Config.SAMPLING_RATE; lra. Qed.

Lemma pass_through_length (b a x y : list R) :
  PassThrough.filtfilt b a x = Some y -> List.length y = List.length x.
Proof. intros H; injection H as <-; reflexivity. Qed.

Lemma pass_through_zero (b a : list R) (n : nat) (y : list R) :
  PassThrough.filtfilt b a (repeat 0 n) = Some y -> y = repeat 0 n.
Proof. intros H; injection H as <-; reflexivity. Qed.

(** Three samples, below the filter threshold. *)
Lemma C7_condition_total_witness :
  exists y,
    DataPreprocessor.condition Config.SAMPLING_RATE
      PassThrough.butter PassThrough.filtfilt [1; 2; 3] = Some y
    /\ List.length y = 3%nat.
Proof.
  destruct (C7_condition_total Config.SAMPLING_RATE
              PassThrough.butter PassThrough.filtfilt
              sampling_rate_nonzero pass_through_length [1; 2; 3])
    as (y & Hy & Hlen & _).
  exists y; split; [exact Hy | exact Hlen].
Defined.



(** The zero signal of length 1000 through the pass-through filter. *)
Lemma C4_zero_signal_witness :
  exists a,
    PassThrough.run (repeat 0 1000) = Some a
    /\ VibrationAnalyzer.time_features a = mkTimeFeatures 0 0 0 0 0 0 0 0
    /\ peak_frequency (VibrationAnalyzer.freq_features a) = 0
    /\ VibrationAnalyzer.fault_score a = 0
    /\ VibrationAnalyzer.damage_level a = "healthy"
    /\ VibrationAnalyzer.fault_types a = [Spec.unbalance].
Proof.
  exact (C4_zero_signal Config.SAMPLING_RATE
           PassThrough.butter PassThrough.filtfilt
           sampling_rate_nonzero pass_through_zero).
Defined.

(** C4 as stated fails: the zero signal of length 1000 is analysed with a
    non-empty list of fault types. *)
Lemma C4_counterexample :
  exists a,
    PassThrough.run (repeat 0 1000) = Some a
    /\ VibrationAnalyzer.fault_types a = [Spec.unbalance]
    /\ VibrationAnalyzer.fault_types a <> [].
Proof.
  eexists; split.
  - apply (run_zeros Config.SAMPLING_RATE
             PassThrough.butter PassThrough.filtfilt
             sampling_rate_nonzero pass_through_zero 1000%nat).
    lia.
  - split; [reflexivity | discriminate].
Qed.

(** * Further properties of the analyzer *)

(** ** Damage level and the fault threshold *)

(** The label of every score, by cases. *)
Lemma classify_cases (s : R) :
  (0 <= s < 0.2 /\ VibrationAnalyzer._classify_damage_level s = "healthy")
  \/ (0.2 <= s < 0.4 /\ VibrationAnalyzer._classify_damage_level s = "slight")
  \/ (0.4 <= s < 0.6 /\ VibrationAnalyzer._classify_damage_level s = "moderate")
  \/ (0.6 <= s < 0.8 /\ VibrationAnalyzer._classify_damage_level s = "severe")
  \/ ((s < 0 \/ 0.8 <= s)
      /\ VibrationAnalyzer._classify_damage_level s = "critical").
Proof.
  unfold VibrationAnalyzer._classify_damage_level,
    VibrationAnalyzer.damage_levels, Config.DAMAGE_LEVELS, Py.items.
  cbn [VibrationAnalyzer.classify_loop].
  destruct (leb_spec 0.0 s), (ltb_spec s 0.2); cbn [andb];
    [left; split; [lra | reflexivity] | | |];
    (destruct (leb_spec 0.2 s), (ltb_spec s 0.4); cbn [andb];
     [right; left; split; [lra | reflexivity] | | |]);
    (destruct (leb_spec 0.4 s), (ltb_spec s 0.6); cbn [andb];
     [right; right; left; split; [lra | reflexivity] | | |]);
    (destruct (leb_spec 0.6 s), (ltb_spec s 0.8); cbn [andb];
     [right; right; right; left; split; [lra | reflexivity] | | |]);
    (destruct (leb_spec 0.8 s), (ltb_spec s 1.0); cbn [andb];
     right; right; right; right; split; try reflexivity; lra).
Qed.

(** X1.  The label of a score, for every real score: healthy, slight,
    moderate and severe exactly on their intervals, and critical exactly
    for the scores from 0.8 on and for the negative scores, which no
    interval of the table contains. *)
Theorem X1_damage_level_table (s : R) :
  (VibrationAnalyzer._classify_damage_level s = "healthy" <-> 0 <= s < 0.2)
  /\ (VibrationAnalyzer._classify_damage_level s = "slight" <-> 0.2 <= s < 0.4)
  /\ (VibrationAnalyzer._classify_damage_level s = "moderate"
      <-> 0.4 <= s < 0.6)
  /\ (VibrationAnalyzer._classify_damage_level s = "severe" <-> 0.6 <= s < 0.8)
  /\ (VibrationAnalyzer._classify_damage_level s = "critical"
      <-> s < 0 \/ 0.8 <= s).
Proof.
  destruct (classify_cases s)
    as [[Hs ->] | [[Hs ->] | [[Hs ->] | [[Hs ->] | [Hs ->]]]]];
    repeat split; intros; try reflexivity; try congruence; lra.
Qed.

(** A negative score is critical. *)
Lemma X1_damage_level_table_witness :
  VibrationAnalyzer._classify_damage_level (-0.3) = "critical".
Proof.
  apply (proj2 (proj2 (proj2 (proj2 (X1_damage_level_table (-0.3)))))).
  left; lra.
Defined.

(** X2.  In every analysis result [is_faulty] says that the score exceeds
    0.5.  A faulty result is moderate, severe or critical; a severe result
    is faulty; a healthy or slight result is not. *)
Theorem X2_is_faulty_and_level (tf : TimeFeatures) (ff : FreqFeatures)
    (a : VibrationAnalyzer.Analysis) :
  VibrationAnalyzer.analyze tf ff = Some a ->
  (VibrationAnalyzer.is_faulty a = true
   <-> VibrationAnalyzer.fault_score a > 0.5)
  /\ (VibrationAnalyzer.is_faulty a = true ->
      In (VibrationAnalyzer.damage_level a) ["moderate"; "severe"; "critical"])
  /\ (VibrationAnalyzer.damage_level a = "severe" ->
      VibrationAnalyzer.is_faulty a = true)
  /\ (In (VibrationAnalyzer.damage_level a) ["healthy"; "slight"] ->
      VibrationAnalyzer.is_faulty a = false).
Proof.
  unfold VibrationAnalyzer.analyze.
  destruct (VibrationAnalyzer._detect_fault_types tf ff) as [faults|];
    [|discriminate].
  intros Ha; injection Ha as <-.
  cbn [VibrationAnalyzer.is_faulty VibrationAnalyzer.fault_score
         VibrationAnalyzer.damage_level].
  unfold VibrationAnalyzer.fault_threshold, Config.FAULT_THRESHOLD.
  generalize (VibrationAnalyzer._calculate_fault_score tf ff); intros s.
  destruct (gtb_spec s 0.5) as [Hgt | Hle];
    destruct (classify_cases s)
      as [[Hs ->] | [[Hs ->] | [[Hs ->] | [[Hs ->] | [Hs ->]]]]];
    repeat split; intros; simpl in *;
      try reflexivity; try discriminate; try tauto; try lra;
      try (exfalso; intuition (try discriminate; lra)).
Qed.

(** The zero features are healthy and not faulty. *)
Lemma X2_is_faulty_and_level_witness :
  VibrationAnalyzer.is_faulty
    (VibrationAnalyzer.mkAnalysis 0 "healthy" false [Spec.unbalance]
       ["System is operating normally. Continue routine monitoring.";
        "Check rotor balance and perform balancing if necessary."]
       (mkTimeFeatures 0 0 0 0 0 0 0 0)
       (mkFreqFeatures 0 0 [("low", 0); ("mid", 0); ("high", 0)])) = false.
Proof.
  apply (proj2 (proj2 (proj2
           (X2_is_faulty_and_level _ _ _ analyze_zeros)))).
  simpl; tauto.
Defined.

(** ** The fault score grows with the features *)




(** ** What detection can return *)

(** X4.  Detection returns at most three hypotheses; unbalance and
    gear_fault never occur together; general_abnormality only occurs
    alone; and every confidence lies between 0.5 and 1. *)
Theorem X4_fault_types_invariants (tf : TimeFeatures) (ff : FreqFeatures)
    (faults : list Fault) :
  VibrationAnalyzer._detect_fault_types tf ff = Some faults ->
  (List.length faults <= 3)%nat
  /\ ~ (In "unbalance" (map type faults) /\ In "gear_fault" (map type faults))
  /\ (In "general_abnormality" (map type faults) ->
      faults = [Spec.general_abnormality])
  /\ (forall f, In f faults -> 0.5 <= confidence f <= 1).
Proof.
  intros Hdetect.
  destruct (detect_some_inv tf ff faults Hdetect) as (high & low & Hh & Hl).
  rewrite (detect_fault_rules tf ff high low Hh Hl) in Hdetect.
  injection Hdetect as <-.
  unfold Spec.fault_rules, Spec.fired, Spec.bearing_rule, Spec.unbalance_rule,
    Spec.misalignment_rule, Spec.gear_rule, Spec.bearing_fault.
  assert (Hconf : kurtosis tf > 5 -> 0.5 <= Rmin (kurtosis tf / 10) 1 <= 1).
  { intros Hk. split; [apply Rmin_glb; lra | apply Rmin_r]. }
  destruct (gtb_spec (kurtosis tf) 5) as [Hk | Hk];
    destruct (ltb_spec (peak_frequency ff) 100) as [Hu | Hu];
    destruct (Py.gtb high (0.5 * low));
    destruct (ltb_spec 500 (peak_frequency ff)) as [Hg1 | Hg1];
    destruct (ltb_spec (peak_frequency ff) 2000) as [Hg2 | Hg2];
    destruct (Py.gtb (rms tf) 5);
    try (exfalso; lra);
    cbn [andb negb app map type List.length In];
    (split; [lia|]);
    (split; [intros [Hun Hgear];
             repeat (destruct Hun as [Hun | Hun]; try discriminate Hun);
             repeat (destruct Hgear as [Hgear | Hgear]; try discriminate Hgear);
             contradiction|]);
    (split; [intros Hgen;
             repeat (destruct Hgen as [Hgen | Hgen]; try discriminate Hgen);
             try contradiction; reflexivity|]);
    intros f Hf;
    repeat (destruct Hf as [<- | Hf];
            [unfold Spec.unbalance, Spec.misalignment, Spec.gear_fault,
               Spec.general_abnormality; cbn [confidence]; try lra; auto|]);
    contradiction.
Qed.

(** Kurtosis 8, a peak at 50 Hz and balanced bands: three hypotheses. *)
Lemma X4_fault_types_invariants_witness :
  Nat.le
    (List.length
       (Spec.fault_rules
          (mkTimeFeatures 0 1 1 3 6 3 8 0)
          (mkFreqFeatures 50 3 [("low", 1); ("mid", 1); ("high", 1)]) 1 1))
    3.
Proof.
  apply (X4_fault_types_invariants
           (mkTimeFeatures 0 1 1 3 6 3 8 0)
           (mkFreqFeatures 50 3 [("low", 1); ("mid", 1); ("high", 1)])).
  apply detect_fault_rules; reflexivity.
Defined.

(** ** How many recommendations *)

Lemma flat_map_length_le {A B} (f : A -> list B) (xs : list A) (k : nat) :
  (forall x, In x xs -> List.length (f x) <= k)%nat ->
  (List.length (flat_map f xs) <= k * List.length xs)%nat.
Proof.
  induction xs as [|x xs IH]; intros Hk; simpl.
  - lia.
  - rewrite length_app.
    specialize (Hk x (or_introl eq_refl)) as Hx.
    specialize (IH (fun y Hy => Hk y (or_intror Hy))). lia.
Qed.

Lemma fault_recommendations_length (f : Fault) :
  (List.length (VibrationAnalyzer.fault_recommendations f) <= 1)%nat.
Proof.
  unfold VibrationAnalyzer.fault_recommendations.
  repeat match goal with
         | |- context [if ?b then _ else _] => destruct b
         end; simpl; lia.
Qed.

(** X5.  An analysis result holds between one and five recommendations:
    the one or two of its damage level and at most one for each of its at
    most three hypotheses. *)
Theorem X5_recommendations_count (tf : TimeFeatures) (ff : FreqFeatures)
    (a : VibrationAnalyzer.Analysis) :
  VibrationAnalyzer.analyze tf ff = Some a ->
  (1 <= List.length (VibrationAnalyzer.recommendations a) <= 5)%nat.
Proof.
  intros Ha.
  destruct (analyze_inv tf ff a Ha) as (_ & Hlevel & Hdetect & Hrecs & _).
  rewrite Hrecs, generate_recommendations_app, length_app.
  assert (Hin : In (VibrationAnalyzer.damage_level a) Spec.labels)
    by (rewrite Hlevel; apply classify_in_labels).
  pose proof (level_recommendations_length _ Hin) as Hlev.
  destruct (detect_some_inv tf ff _ Hdetect) as (high & low & Hh & Hl).
  assert (Hlen : (List.length (VibrationAnalyzer.fault_types a) <= 3)%nat).
  { rewrite (detect_fault_rules tf ff high low Hh Hl) in Hdetect.
    injection Hdetect as <-.
    unfold Spec.fault_rules, Spec.fired, Spec.unbalance_rule, Spec.gear_rule.
    destruct (Spec.bearing_rule tf);
      destruct (ltb_spec (peak_frequency ff) 100);
      destruct (Spec.misalignment_rule high low);
      destruct (ltb_spec 500 (peak_frequency ff));
      destruct (Py.ltb (peak_frequency ff) 2000);
      destruct (Py.gtb (rms tf) 5); simpl; try lia; lra. }
  pose proof (flat_map_length_le VibrationAnalyzer.fault_recommendations
                (VibrationAnalyzer.fault_types a) 1
                (fun f _ => fault_recommendations_length f)) as Hfaults.
  lia.
Qed.

(** The analysis of the zero features holds two recommendations. *)
Lemma X5_recommendations_count_witness :
  Nat.le 1
    (List.length
       (VibrationAnalyzer.recommendations
          (VibrationAnalyzer.mkAnalysis 0 "healthy" false [Spec.unbalance]
             ["System is operating normally. Continue routine monitoring.";
              "Check rotor balance and perform balancing if necessary."]
             (mkTimeFeatures 0 0 0 0 0 0 0 0)
             (mkFreqFeatures 0 0 [("low", 0); ("mid", 0); ("high", 0)])))).
Proof.
  exact (proj1 (X5_recommendations_count _ _ _ analyze_zeros)).
Defined.

(** * Further properties of the preprocessor *)

(** ** Facts about maxima and lengths *)


Lemma length_pos_INR {A} (xs : list A) : xs <> [] -> 0 < INR (List.length xs).
Proof.
  intros Hne. apply lt_0_INR. destruct xs; [congruence | simpl; lia].
Qed.

(** ** The frequency bins *)

(** Every bin frequency lies between 0 and half the sampling rate. *)
Lemma bin_frequencies_bounds (sr : R) (data : list R) (f : R) :
  0 <= sr -> data <> [] ->
  In f (Spec.bin_frequencies sr data) -> 0 <= f <= sr / 2.
Proof.
  intros Hsr Hne Hf. unfold Spec.bin_frequencies in Hf.
  apply in_map_iff in Hf. destruct Hf as (k & <- & Hk).
  apply in_seq in Hk.
  pose proof (length_pos_INR data Hne) as Hn.
  set (n := List.length data) in *.
  assert (Hk2 : (2 * k <= n)%nat).
  { assert (k <= n / 2)%nat by lia.
    pose proof (Nat.Div0.mul_div_le n 2). lia. }
  apply le_INR in Hk2. rewrite mult_INR in Hk2. simpl in Hk2.
  pose proof (pos_INR k) as Hk0.
  assert (Hinv : 0 < / INR n) by (apply Rinv_0_lt_compat; exact Hn).
  split.
  - unfold Rdiv. apply Rmult_le_pos; [apply Rmult_le_pos; lra | lra].
  - apply Rmult_le_reg_r with (INR n); [exact Hn|].
    unfold Rdiv. rewrite Rmult_assoc, Rinv_l by lra. nra.
Qed.

(** ** Band powers of arrays of different lengths *)




(** ** When the pipeline returns *)

(** With a sampling rate of 0 the preprocessor fails on every input: on
    the division by [nyquist] before the filter, or on [1 / sampling_rate]
    before the bin frequencies. *)
Lemma preprocess_zero_rate
    (butter : nat -> R -> R -> option (list R * list R))
    (filtfilt : list R -> list R -> list R -> option (list R))
    (data : list R) :
  DataPreprocessor.preprocess 0 butter filtfilt data = None.
Proof.
  unfold DataPreprocessor.preprocess, DataPreprocessor.condition; cbv zeta.
  destruct (Nat.ltb 100 _).
  - replace (0 / 2) with 0 by lra. rewrite div_zero. reflexivity.
  - destruct (DataPreprocessor._extract_time_features _) as [tf|];
      [|reflexivity].
    unfold DataPreprocessor._extract_frequency_features.
    destruct (Np.rfft _) as [fft_vals|]; [|reflexivity].
    rewrite div_zero. reflexivity.
Qed.

(** The preprocessor fails on the empty sequence, on the maximum of an
    empty array. *)
Lemma preprocess_empty (sr : R)
    (butter : nat -> R -> R -> option (list R * list R))
    (filtfilt : list R -> list R -> list R -> option (list R)) :
  DataPreprocessor.preprocess sr butter filtfilt [] = None.
Proof. reflexivity. Qed.

(** X12.  Given that the filter keeps the length of its input, the
    pipeline fails exactly on the empty input and with a sampling rate of
    0; on every other input it returns a result. *)
Theorem X12_pipeline_returns_iff (sr : R)
    (butter : nat -> R -> R -> option (list R * list R))
    (filtfilt : list R -> list R -> list R -> option (list R))
    (data : list R) :
  (forall b a x y, filtfilt b a x = Some y -> List.length y = List.length x) ->
  (Pipeline.run sr butter filtfilt data = None <-> data = [] \/ sr = 0).
Proof.
  intros Hlen. split.
  - intros Hnone.
    destruct data as [|x data]; [left; reflexivity|].
    destruct (Req_dec sr 0) as [Hsr | Hsr]; [right; exact Hsr|].
    destruct (run_some sr butter filtfilt Hsr Hlen (x :: data)
                ltac:(discriminate)) as [a Ha].
    rewrite Ha in Hnone. discriminate Hnone.
  - intros [-> | ->]; unfold Pipeline.run.
    + rewrite preprocess_empty. reflexivity.
    + rewrite preprocess_zero_rate. reflexivity.
Qed.

(** The empty input through the pass-through filter. *)
Lemma X12_pipeline_returns_iff_witness : PassThrough.run [] = None.
Proof.
  apply (proj2 (X12_pipeline_returns_iff Config.SAMPLING_RATE
                  PassThrough.butter PassThrough.filtfilt []
                  pass_through_length)).
  left; reflexivity.
Defined.

(** * File names: the upload check and the loader *)

(** ** Splitting at the last separator *)

Lemma rpartition_none (sep : ascii) (s : string) :
  Str.rpartition sep s = None <-> Str.contains sep s = false.
Proof.
  induction s as [|c s IH]; simpl.
  - split; reflexivity.
  - rewrite (Ascii.eqb_sym sep c).
    destruct (Str.rpartition sep s) as [[before after]|].
    + split; [discriminate|]. intros H. apply orb_false_elim in H.
      destruct H as [_ H]. apply IH in H. discriminate H.
    + assert (Hs : Str.contains sep s = false) by (apply IH; reflexivity).
      rewrite Hs, orb_false_r.
      destruct (Ascii.eqb c sep); split; congruence.
Qed.

Lemma rpartition_app (sep : ascii) (before after : string) :
  Str.contains sep after = false ->
  Str.rpartition sep (before ++ String sep after)%string
  = Some (before, after).
Proof.
  intros Hafter. apply rpartition_none in Hafter.
  induction before as [|c before IH]; simpl.
  - rewrite Hafter, Ascii.eqb_refl. reflexivity.
  - rewrite IH. reflexivity.
Qed.

Lemma rpartition_some (sep : ascii) (s before after : string) :
  Str.rpartition sep s = Some (before, after) ->
  s = (before ++ String sep after)%string
  /\ Str.contains sep after = false.
Proof.
  revert before; induction s as [|c s IH]; intros before; simpl.
  - discriminate.
  - destruct (Str.rpartition sep s) as [[b a]|] eqn:Hs.
    + intros H; injection H as <- <-.
      destruct (IH b eq_refl) as [-> Hafter].
      split; [reflexivity | exact Hafter].
    + destruct (Ascii.eqb c sep) eqn:Hc; [|discriminate].
      intros H; injection H as <- <-.
      apply Ascii.eqb_eq in Hc; subst c.
      split; [reflexivity | apply rpartition_none; exact Hs].
Qed.

Lemma contains_app (c : ascii) (s t : string) :
  Str.contains c (s ++ t)%string = Str.contains c s || Str.contains c t.
Proof.
  induction s as [|c' s IH]; simpl; [reflexivity|].
  rewrite IH, orb_assoc. reflexivity.
Qed.

Lemma mem_In (x : string) (xs : list string) :
  Str.mem x xs = true <-> In x xs.
Proof.
  unfold Str.mem. rewrite existsb_exists. split.
  - intros (y & Hy & Heq). apply String.eqb_eq in Heq. subst y. exact Hy.
  - intros Hx. exists x. split; [exact Hx | apply String.eqb_refl].
Qed.

(** ** [allowed_file] *)

(** The decision depends on the text after the last dot only. *)
Lemma allowed_file_app (stem ext : string) :
  Str.contains "."%char ext = false ->
  App.allowed_file (stem ++ String "."%char ext)%string
  = Some (Str.mem (Str.lower ext) Config.ALLOWED_EXTENSIONS).
Proof.
  intros Hext. unfold App.allowed_file, Str.rsplit1.
  rewrite contains_app. cbn [Str.contains]. rewrite Ascii.eqb_refl.
  rewrite orb_true_r.
  rewrite (rpartition_app "."%char stem ext Hext). reflexivity.
Qed.

(** X14.  [allowed_file] never raises: the index 1 of the split exists
    whenever the name contains a dot.  It accepts a name exactly when the
    text after the last dot, in lower case, is one of the allowed
    extensions; a name without a dot is rejected. *)
Theorem X14_allowed_file (filename : string) :
  (exists b, App.allowed_file filename = Some b)
  /\ (App.allowed_file filename = Some true
      <-> exists stem ext,
            filename = (stem ++ String "."%char ext)%string
            /\ Str.contains "."%char ext = false
            /\ In (Str.lower ext) Config.ALLOWED_EXTENSIONS).
Proof.
  destruct (Str.rpartition "."%char filename) as [[stem ext]|] eqn:Hsplit.
  - destruct (rpartition_some _ _ _ _ Hsplit) as [-> Hext].
    rewrite (allowed_file_app stem ext Hext).
    split; [eexists; reflexivity|]. split.
    + intros H.
      assert (Hm : Str.mem (Str.lower ext) Config.ALLOWED_EXTENSIONS = true)
        by congruence.
      apply mem_In in Hm.
      exists stem, ext. repeat split; assumption.
    + intros (stem' & ext' & Heq & Hext' & Hin).
      rewrite Heq in Hsplit. rewrite (rpartition_app _ _ _ Hext') in Hsplit.
      injection Hsplit as <- <-.
      f_equal. apply mem_In; exact Hin.
  - apply rpartition_none in Hsplit.
    unfold App.allowed_file. rewrite Hsplit.
    split; [eexists; reflexivity|]. split; [discriminate|].
    intros (stem & ext & -> & _ & _).
    rewrite contains_app in Hsplit. cbn [Str.contains] in Hsplit.
    rewrite Ascii.eqb_refl, orb_true_r in Hsplit. discriminate Hsplit.
Qed.

(** An upper-case extension after two dots. *)
Lemma X14_allowed_file_witness :
  App.allowed_file "run.2024.CSV" = Some true.
Proof.
  apply (proj2 (X14_allowed_file "run.2024.CSV")).
  exists "run.2024", "CSV". repeat split; simpl; tauto.
Defined.

(** X15.  Every name that the check of [webapp.py] accepts (extension
    csv) is accepted by the check of [app.py]. *)
Theorem X15_webapp_names_allowed (filename : string) :
  Webapp.allowed_file filename = Some true ->
  App.allowed_file filename = Some true.
Proof.
  unfold Webapp.allowed_file, App.allowed_file.
  destruct (Str.contains "."%char filename); [|discriminate].
  destruct (nth_error (Str.rsplit1 "."%char filename) 1) as [ext|];
    [|discriminate].
  intros H.
  assert (Hm : Str.mem (Str.lower ext) Webapp.ALLOWED_EXTENSIONS = true)
    by congruence.
  f_equal. apply mem_In in Hm. apply mem_In.
  destruct Hm as [<- | []]. simpl; tauto.
Qed.

(** A csv name. *)
Lemma X15_webapp_names_allowed_witness :
  App.allowed_file "signal.csv" = Some true.
Proof.
  apply X15_webapp_names_allowed. reflexivity.
Defined.

(** ** The extension that [load_data] reads *)

Lemma lower_char_dot (c : ascii) :
  Ascii.eqb "."%char (Str.lower_char c) = Ascii.eqb "."%char c.
Proof. destruct c as [[] [] [] [] [] [] [] []]; reflexivity. Qed.

Lemma lower_char_slash (c : ascii) :
  Ascii.eqb "/"%char (Str.lower_char c) = Ascii.eqb "/"%char c.
Proof. destruct c as [[] [] [] [] [] [] [] []]; reflexivity. Qed.

Lemma contains_dot_lower (s : string) :
  Str.contains "."%char (Str.lower s) = Str.contains "."%char s.
Proof.
  induction s as [|c s IH]; cbn [Str.contains Str.lower]; [reflexivity|].
  rewrite lower_char_dot, IH. reflexivity.
Qed.

Lemma contains_slash_lower (s : string) :
  Str.contains "/"%char (Str.lower s) = Str.contains "/"%char s.
Proof.
  induction s as [|c s IH]; cbn [Str.contains Str.lower]; [reflexivity|].
  rewrite lower_char_slash, IH. reflexivity.
Qed.

(** An extension that is allowed in lower case holds no dot and no
    slash. *)
Lemma allowed_extension_plain (ext : string) :
  In (Str.lower ext) Config.ALLOWED_EXTENSIONS ->
  Str.contains "."%char ext = false /\ Str.contains "/"%char ext = false.
Proof.
  intros Hin. rewrite <- contains_dot_lower, <- contains_slash_lower.
  simpl in Hin.
  destruct Hin as [<- | [<- | [<- | [<- | [<- | []]]]]]; split; reflexivity.
Qed.

(** A last component made of dots and an extension has no extension for
    [splitext]. *)
Lemma splitext_dots (dir dots ext : string) :
  OsPath.all_dots dots = true ->
  Str.contains "/"%char ext = false ->
  Str.contains "."%char ext = false ->
  OsPath.splitext (dir ++ String "/"%char (dots ++ String "."%char ext))%string
  = ((dir ++ String "/"%char (dots ++ String "."%char ext))%string,
     EmptyString).
Proof.
  intros Hdots Hext Hext'. unfold OsPath.splitext.
  assert (Hslash : Str.contains "/"%char dots = false).
  { induction dots as [|c dots IH]; [reflexivity|].
    simpl in Hdots. apply andb_prop in Hdots. destruct Hdots as [Hc Hdots].
    apply Ascii.eqb_eq in Hc; subst c. simpl. exact (IH Hdots). }
  rewrite (rpartition_app "/"%char dir).
  - rewrite (rpartition_app "."%char dots ext Hext'), Hdots. reflexivity.
  - rewrite contains_app, Hslash. cbn [Str.contains]. rewrite Hext.
    reflexivity.
Qed.

(** The path of an upload whose name does not start with a slash. *)
Lemma join_upload_folder (name : string) :
  Str.startswith name "/" = false ->
  OsPath.join Config.UPLOAD_FOLDER name
  = ("uploads" ++ String "/"%char name)%string.
Proof.
  intros Hname. unfold OsPath.join. rewrite Hname. reflexivity.
Qed.

Section Loader.

Variable Data : Type.
Variable read_csv : string -> option Data.
Variable loadtxt : string -> option Data.
Variable read_excel : string -> option Data.
Variable loadmat : string -> option (Py.dict Data).

Let load_data :=
  DataPreprocessor.load_data Data read_csv loadtxt read_excel loadmat.

Lemma call_not_value_error (r : option Data) (msg : string) :
  DataPreprocessor.call Data r <> inl (DataPreprocessor.ValueError msg).
Proof. destruct r; discriminate. Qed.

(** X16.  [load_data] raises the error [Unsupported file format] exactly
    when the extension of the path, in lower case, is not a dot followed
    by one of [Config.ALLOWED_EXTENSIONS]: the loader and the upload check
    know the same formats. *)
Theorem X16_supported_formats (filepath : string) :
  let ext := Str.lower (snd (OsPath.splitext filepath)) in
  DataPreprocessor.load_data Data read_csv loadtxt read_excel loadmat filepath
  = inl (DataPreprocessor.ValueError ("Unsupported file format: " ++ ext)%string)
  <-> ~ In ext (map (String "."%char) Config.ALLOWED_EXTENSIONS).
Proof.
  intros ext. unfold DataPreprocessor.load_data; cbv zeta. fold ext.
  unfold Str.mem; cbn [existsb map Config.ALLOWED_EXTENSIONS].
  destruct (String.eqb_spec ext ".csv") as [-> | Hcsv].
  { split; [intros H; exfalso; exact (call_not_value_error _ _ H)|].
    intros H; exfalso; apply H; simpl; tauto. }
  destruct (String.eqb_spec ext ".txt") as [-> | Htxt].
  { split; [intros H; exfalso; exact (call_not_value_error _ _ H)|].
    intros H; exfalso; apply H; simpl; tauto. }
  destruct (String.eqb_spec ext ".xlsx") as [-> | Hxlsx].
  { split; [intros H; exfalso; exact (call_not_value_error _ _ H)|].
    intros H; exfalso; apply H; simpl; tauto. }
  destruct (String.eqb_spec ext ".xls") as [-> | Hxls].
  { split; [intros H; exfalso; exact (call_not_value_error _ _ H)|].
    intros H; exfalso; apply H; simpl; tauto. }
  cbn [orb].
  destruct (String.eqb_spec ext ".mat") as [-> | Hmat].
  { split.
    - destruct (loadmat filepath) as [mat_data|]; [|discriminate].
      destruct (DataPreprocessor.first_array Data (Py.items mat_data));
        discriminate.
    - intros H; exfalso; apply H; simpl; tauto. }
  split; [|reflexivity].
  intros _ [H | [H | [H | [H | [H | []]]]]]; congruence.
Qed.

(** X18.  A name made of dots only before an allowed extension, such as
    [.csv], passes the upload check, but [load_data] finds no extension in
    its path and raises [Unsupported file format]. *)
Theorem X18_dot_names_rejected (dots ext : string) :
  In ext Config.ALLOWED_EXTENSIONS ->
  OsPath.all_dots dots = true ->
  let name := (dots ++ String "."%char ext)%string in
  App.allowed_file name = Some true
  /\ DataPreprocessor.load_data Data read_csv loadtxt read_excel loadmat
       (OsPath.join Config.UPLOAD_FOLDER name)
     = inl (DataPreprocessor.ValueError "Unsupported file format: ").
Proof.
  intros Hin Hdots name.
  assert (Hlower : Str.lower ext = ext).
  { simpl in Hin.
    destruct Hin as [<- | [<- | [<- | [<- | [<- | []]]]]]; reflexivity. }
  assert (Hin' : In (Str.lower ext) Config.ALLOWED_EXTENSIONS)
    by (rewrite Hlower; exact Hin).
  destruct (allowed_extension_plain ext Hin') as [Hdot Hslash].
  split.
  - unfold name. rewrite (allowed_file_app dots ext Hdot).
    f_equal. apply mem_In; exact Hin'.
  - assert (Hstart : Str.startswith name "/" = false).
    { unfold name. destruct dots as [|c dots]; [reflexivity|].
      simpl in Hdots. apply andb_prop in Hdots. destruct Hdots as [Hc _].
      apply Ascii.eqb_eq in Hc; subst c. reflexivity. }
    rewrite (join_upload_folder name Hstart).
    unfold DataPreprocessor.load_data, name; cbv zeta.
    rewrite (splitext_dots "uploads" dots ext Hdots Hslash Hdot).
    reflexivity.
Qed.

End Loader.

(** ** The array taken from a [.mat] file *)

Section Mat.

Variable Data : Type.

(** The loop returns the value of the first key without the prefix. *)
Lemma first_array_some (items : list (string * Data)) (v : Data) :
  DataPreprocessor.first_array Data items = Some v
  <-> exists before key after,
        items = before ++ (key, v) :: after
        /\ Str.startswith key "__" = false
        /\ forall k d, In (k, d) before -> Str.startswith k "__" = true.
Proof.
  induction items as [|[k d] items IH]; cbn [DataPreprocessor.first_array].
  - split; [discriminate|].
    intros (before & key & after & H & _). destruct before; discriminate H.
  - destruct (Str.startswith k "__") eqn:Hk; cbn [negb].
    + rewrite IH. split.
      * intros (before & key & after & -> & Hkey & Hbefore).
        exists ((k, d) :: before), key, after.
        split; [reflexivity|]. split; [exact Hkey|].
        intros k' d' [H | H]; [congruence | exact (Hbefore k' d' H)].
      * intros (before & key & after & Heq & Hkey & Hbefore).
        destruct before as [|[k0 d0] before].
        -- injection Heq as -> ->. congruence.
        -- injection Heq as -> -> ->.
           exists before, key, after.
           split; [reflexivity|]. split; [exact Hkey|].
           intros k' d' H; apply (Hbefore k' d'); right; exact H.
    + split.
      * intros H; injection H as ->.
        exists [], k, items.
        split; [reflexivity|]. split; [exact Hk|]. intros k' d' [].
      * intros (before & key & after & Heq & Hkey & Hbefore).
        destruct before as [|[k0 d0] before].
        -- injection Heq as -> ->. reflexivity.
        -- injection Heq as -> -> ->.
           rewrite (Hbefore k0 d0 (or_introl eq_refl)) in Hk. discriminate Hk.
Qed.

Lemma first_array_none (items : list (string * Data)) :
  DataPreprocessor.first_array Data items = None
  <-> forall k d, In (k, d) items -> Str.startswith k "__" = true.
Proof.
  induction items as [|[k d] items IH]; cbn [DataPreprocessor.first_array].
  - split; [intros _ k d [] | reflexivity].
  - destruct (Str.startswith k "__") eqn:Hk; cbn [negb].
    + rewrite IH. split.
      * intros H k' d' [Heq | Hin]; [congruence | exact (H k' d' Hin)].
      * intros H k' d' Hin. apply (H k' d'). right; exact Hin.
    + split; [discriminate|]. intros H.
      rewrite (H k d (or_introl eq_refl)) in Hk. discriminate Hk.
Qed.

Variable read_csv : string -> option Data.
Variable loadtxt : string -> option Data.
Variable read_excel : string -> option Data.
Variable loadmat : string -> option (Py.dict Data).

(** X19.  On a path with the extension [.mat]: when [loadmat] raises,
    [load_data] raises [ValueError] with the message
    [Could not load .mat file]; otherwise it returns the value of the
    first key that does not start with two underscores, and raises
    [UnboundLocalError] when every key starts with two underscores. *)
Theorem X19_mat_first_array (filepath : string) :
  Str.lower (snd (OsPath.splitext filepath)) = ".mat" ->
  (loadmat filepath = None ->
   DataPreprocessor.load_data Data read_csv loadtxt read_excel loadmat filepath
   = inl (DataPreprocessor.ValueError "Could not load .mat file"))
  /\ (forall mat_data,
        loadmat filepath = Some mat_data ->
        (forall v,
            DataPreprocessor.load_data Data read_csv loadtxt read_excel
              loadmat filepath = inr v
            <-> exists before key after,
                  mat_data = before ++ (key, v) :: after
                  /\ Str.startswith key "__" = false
                  /\ forall k d,
                       In (k, d) before -> Str.startswith k "__" = true)
        /\ (DataPreprocessor.load_data Data read_csv loadtxt read_excel
              loadmat filepath = inl DataPreprocessor.UnboundLocalError
            <-> forall k d,
                  In (k, d) mat_data -> Str.startswith k "__" = true)).
Proof.
  intros Hext.
  assert (Hload :
            DataPreprocessor.load_data Data read_csv loadtxt read_excel
              loadmat filepath
            = match loadmat filepath with
              | None =>
                  inl (DataPreprocessor.ValueError "Could not load .mat file")
              | Some mat_data =>
                  match DataPreprocessor.first_array Data mat_data with
                  | Some data => inr data
                  | None => inl DataPreprocessor.UnboundLocalError
                  end
              end).
  { unfold DataPreprocessor.load_data; cbv zeta. rewrite Hext. reflexivity. }
  rewrite Hload. split.
  - intros ->. reflexivity.
  - intros mat_data ->. split.
    + intros v. rewrite <- first_array_some.
      destruct (DataPreprocessor.first_array Data mat_data);
        split; congruence.
    + rewrite <- first_array_none.
      destruct (DataPreprocessor.first_array Data mat_data);
        split; congruence.
Qed.

End Mat.

(** *** Instances *)

(** A pdf file. *)
Lemma X16_supported_formats_witness :
  NoFiles.load_data "uploads/notes.pdf"
  = inl (DataPreprocessor.ValueError "Unsupported file format: .pdf").
Proof.
  apply (proj2 (X16_supported_formats NoFiles.Data NoFiles.read_csv
                  NoFiles.loadtxt NoFiles.read_excel NoFiles.loadmat
                  "uploads/notes.pdf")).
  simpl. intuition discriminate.
Defined.

(** The name [.csv]. *)
Lemma X18_dot_names_rejected_witness :
  App.allowed_file ".csv" = Some true
  /\ NoFiles.load_data (OsPath.join Config.UPLOAD_FOLDER ".csv")
     = inl (DataPreprocessor.ValueError "Unsupported file format: ").
Proof.
  apply (X18_dot_names_rejected NoFiles.Data NoFiles.read_csv
           NoFiles.loadtxt NoFiles.read_excel NoFiles.loadmat "" "csv").
  - simpl; tauto.
  - reflexivity.
Defined.

(** The array [vib] behind the three header entries. *)
Lemma X19_mat_first_array_witness :
  MatFile.load_data "uploads/run1.mat" = inr [1; 2; 3].
Proof.
  apply (proj1 (proj2 (X19_mat_first_array MatFile.Data NoFiles.read_csv
                         NoFiles.loadtxt NoFiles.read_excel MatFile.loadmat
                         "uploads/run1.mat" eq_refl)
                  _ eq_refl)).
  exists [("__header__", []); ("__version__", []); ("__globals__", [])],
    "vib", [].
  split; [reflexivity|]. split; [reflexivity|].
  intros k d [H | [H | [H | []]]]; injection H as <- _; reflexivity.
Defined.

(** * The feature chart *)








(** * Further properties of the pipeline *)

(** X21.  The all-zero signal of any positive length is analysed as score
    0, healthy, not faulty, with the single hypothesis unbalance and two
    recommendations; this holds for every filter that maps the zero
    sequence to itself. *)
Theorem X21_zero_signal_result (sr : R)
    (butter : nat -> R -> R -> option (list R * list R))
    (filtfilt : list R -> list R -> list R -> option (list R))
    (n : nat) :
  sr <> 0 ->
  (forall b a k y, filtfilt b a (repeat 0 k) = Some y -> y = repeat 0 k) ->
  (0 < n)%nat ->
  Pipeline.run sr butter filtfilt (repeat 0 n)
  = Some (VibrationAnalyzer.mkAnalysis 0 "healthy" false [Spec.unbalance]
            ["System is operating normally. Continue routine monitoring.";
             "Check rotor balance and perform balancing if necessary."]
            (mkTimeFeatures 0 0 0 0 0 0 0 0)
            (mkFreqFeatures 0 0 [("low", 0); ("mid", 0); ("high", 0)])).
Proof.
  intros Hsr Hzero Hn. exact (run_zeros sr butter filtfilt Hsr Hzero n Hn).
Qed.

(** Three zero samples. *)
Lemma X21_zero_signal_result_witness :
  PassThrough.run [0; 0; 0]
  = Some (VibrationAnalyzer.mkAnalysis 0 "healthy" false [Spec.unbalance]
            ["System is operating normally. Continue routine monitoring.";
             "Check rotor balance and perform balancing if necessary."]
            (mkTimeFeatures 0 0 0 0 0 0 0 0)
            (mkFreqFeatures 0 0 [("low", 0); ("mid", 0); ("high", 0)])).
Proof.
  apply (X21_zero_signal_result Config.SAMPLING_RATE PassThrough.butter
           PassThrough.filtfilt 3 sampling_rate_nonzero pass_through_zero).
  lia.
Defined.

(** * The frequency plot *)

Lemma where_le_from_spec (xs : list R) (c : R) (k i : nat) :
  In i (Visualizer.where_le_from k xs c) ->
  (k <= i)%nat /\ exists x, nth_error xs (i - k) = Some x /\ x <= c.
Proof.
  revert k; induction xs as [|x xs IH]; intros k; simpl; [contradiction|].
  assert (Hrest : In i (Visualizer.where_le_from (S k) xs c) ->
                  (k <= i)%nat
                  /\ exists x0, nth_error (x :: xs) (i - k) = Some x0 /\ x0 <= c).
  { intros Hin. destruct (IH (S k) Hin) as (Hle & x0 & Hnth & Hx0).
    split; [lia|]. exists x0. split; [|exact Hx0].
    replace (i - k)%nat with (S (i - S k)) by lia. exact Hnth. }
  destruct (leb_spec x c) as [Hx | Hx]; [|exact Hrest].
  intros [<- | Hin]; [|exact (Hrest Hin)].
  split; [lia|]. exists x. rewrite Nat.sub_diag. split; [reflexivity | exact Hx].
Qed.

Lemma last_in (l : list nat) (d : nat) : l <> [] -> In (last l d) l.
Proof.
  induction l as [|x l IH]; [congruence|]. intros _.
  destruct l as [|y l]; [left; reflexivity|].
  right. apply IH. discriminate.
Qed.

Lemma firstn_in_nth {A} (l : list A) (n : nat) (x : A) :
  In x (firstn n l) -> exists j, (j < n)%nat /\ nth_error l j = Some x.
Proof.
  revert n; induction l as [|y l IH]; intros [|n]; simpl; try contradiction.
  intros [<- | Hin].
  - exists 0%nat. split; [lia | reflexivity].
  - destruct (IH n Hin) as (j & Hj & Hnth).
    exists (S j). split; [lia | exact Hnth].
Qed.

Lemma nth_error_map_seq {A} (f : nat -> A) (m j : nat) (x : A) :
  nth_error (map f (seq 0 m)) j = Some x -> x = f j /\ (j < m)%nat.
Proof.
  intros Hnth.
  assert (Hj : (j < m)%nat).
  { assert (H : nth_error (map f (seq 0 m)) j <> None)
      by (rewrite Hnth; discriminate).
    apply nth_error_Some in H.
    rewrite length_map, length_seq in H. exact H. }
  rewrite nth_error_map in Hnth.
  rewrite (nth_error_nth' (seq 0 m) 0%nat) in Hnth
    by (rewrite length_seq; exact Hj).
  rewrite seq_nth in Hnth by exact Hj.
  simpl in Hnth. injection Hnth as <-. split; [reflexivity | exact Hj].
Qed.

(** X24.  At a positive sampling rate the frequency plot gets two arrays
    of the same length whose frequencies lie between 0 and 5000 Hz; the
    first bin that is left out is itself at most 5000 Hz, so the highest
    bin of at most 5000 Hz is not plotted. *)
Theorem X24_frequency_plot_window (sr : R) (data xs ys : list R) :
  0 < sr ->
  Visualizer.frequency_plot_data data sr = Some (xs, ys) ->
  List.length xs = List.length ys
  /\ (forall f, In f xs -> 0 <= f <= 5000)
  /\ exists f,
       nth_error (Spec.bin_frequencies sr data) (List.length xs) = Some f
       /\ f <= 5000.
Proof.
  intros Hsr. unfold Visualizer.frequency_plot_data.
  destruct data as [|x0 data0] eqn:Hdata; [discriminate|].
  rewrite <- Hdata.
  assert (Hne : data <> []) by (rewrite Hdata; discriminate).
  clear Hdata.
  replace (Np.rfft data)
    with (Some (map (Np.dft_bin data) (seq 0 (List.length data / 2 + 1))))
    by (destruct data; [congruence | reflexivity]).
  cbv zeta. rewrite (div_some 1 sr) by lra.
  rewrite (rfftfreq_bin_frequencies sr data) by (try lra; exact Hne).
  set (bins := Spec.bin_frequencies sr data).
  set (idx := Visualizer.where_le bins 5000).
  assert (Hidx : idx <> []).
  { unfold idx, bins, Spec.bin_frequencies, Visualizer.where_le.
    rewrite Nat.add_1_r. cbn [seq map Visualizer.where_le_from].
    destruct (leb_spec (INR 0 * sr / INR (List.length data)) 5000)
      as [_ | H]; [discriminate|].
    exfalso; apply H. simpl. unfold Rdiv. lra. }
  assert (Hpos : (0 <? List.length idx)%nat = true).
  { apply Nat.ltb_lt. destruct idx; [congruence | simpl; lia]. }
  rewrite Hpos.
  pose proof (last_in idx 0%nat Hidx) as Hlast.
  set (i := last idx 0%nat) in *.
  apply where_le_from_spec in Hlast.
  destruct Hlast as (_ & f & Hf & Hf5000).
  rewrite Nat.sub_0_r in Hf.
  assert (Hi : (i < List.length bins)%nat)
    by (apply nth_error_Some; rewrite Hf; discriminate).
  intros H; injection H as <- <-.
  rewrite !length_firstn, !length_map, length_seq.
  unfold bins in Hi. rewrite bin_frequencies_length in Hi.
  fold bins.
  assert (Hlenb : List.length bins = (List.length data / 2 + 1)%nat)
    by apply bin_frequencies_length.
  rewrite Hlenb.
  split; [reflexivity|]. rewrite Nat.min_l by lia.
  split; [|exists f; split; [exact Hf | exact Hf5000]].
  intros g Hg. apply firstn_in_nth in Hg. destruct Hg as (j & Hj & Hg).
  pose proof (bin_frequencies_bounds sr data g ltac:(lra) Hne
                (nth_error_In _ _ Hg)) as Hbound.
  split; [lra|].
  unfold bins, Spec.bin_frequencies in Hf, Hg.
  apply nth_error_map_seq in Hf. apply nth_error_map_seq in Hg.
  destruct Hf as [-> _]. destruct Hg as [-> _].
  pose proof (length_pos_INR data Hne) as Hn.
  assert (Hji : INR j <= INR i) by (apply le_INR; lia).
  assert (Hinv : 0 < / INR (List.length data))
    by (apply Rinv_0_lt_compat; exact Hn).
  apply Rle_trans with (INR i * sr / INR (List.length data));
    [|exact Hf5000].
  unfold Rdiv. apply Rmult_le_compat_r; [lra|].
  apply Rmult_le_compat_r; lra.
Qed.

(** Four samples at 8000 Hz. *)
Lemma X24_frequency_plot_window_witness :
  exists xs ys,
    Visualizer.frequency_plot_data [1; 0; -1; 0] 8000 = Some (xs, ys)
    /\ List.length xs = List.length ys.
Proof.
  destruct (Visualizer.frequency_plot_data [1; 0; -1; 0] 8000)
    as [[xs ys]|] eqn:Hplot.
  - exists xs, ys. split; [reflexivity|].
    apply (X24_frequency_plot_window 8000 [1; 0; -1; 0] xs ys);
      [lra | exact Hplot].
  - exfalso. revert Hplot. unfold Visualizer.frequency_plot_data.
    cbn [Np.rfft]. cbv zeta. rewrite (div_some 1 8000) by lra.
    rewrite (rfftfreq_bin_frequencies 8000 [1; 0; -1; 0])
      by (try lra; discriminate).
    discriminate.
Defined.

(** * The polarity of the signal *)

Lemma np_sum_opp (xs : list R) : Np.sum (map Ropp xs) = - Np.sum xs.
Proof.
  unfold Np.sum; induction xs as [|x xs IH]; simpl; [lra|].
  rewrite IH; lra.
Qed.

Lemma np_mean_opp (xs : list R) : Np.mean (map Ropp xs) = - Np.mean xs.
Proof.
  unfold Np.mean. rewrite np_sum_opp, length_map. unfold Rdiv; ring.
Qed.

Lemma np_abs_opp (xs : list R) : Np.abs (map Ropp xs) = Np.abs xs.
Proof.
  unfold Np.abs. rewrite map_map. apply map_ext; intros x. apply Rabs_Ropp.
Qed.

Lemma np_square_opp (xs : list R) : Np.square (map Ropp xs) = Np.square xs.
Proof.
  unfold Np.square. rewrite map_map. apply map_ext; intros x. ring.
Qed.

(** Removing the mean commutes with the change of sign. *)
Lemma remove_mean_opp (data : list R) :
  map (fun x => x - Np.mean (map Ropp data)) (map Ropp data)
  = map Ropp (map (fun x => x - Np.mean data) data).
Proof.
  rewrite np_mean_opp, !map_map. apply map_ext; intros x. ring.
Qed.

Lemma np_std_opp (xs : list R) : Np.std (map Ropp xs) = Np.std xs.
Proof.
  unfold Np.std; cbv zeta. rewrite remove_mean_opp, np_abs_opp.
  reflexivity.
Qed.

Lemma kurtosis_opp (xs : list R) :
  DataPreprocessor._kurtosis (map Ropp xs) = DataPreprocessor._kurtosis xs.
Proof.
  unfold DataPreprocessor._kurtosis; cbv zeta.
  rewrite length_map, np_std_opp, np_mean_opp.
  destruct (Nat.ltb (List.length xs) 4); [reflexivity|].
  destruct (eqb_spec (Np.std xs) 0) as [H0 | H0]; [reflexivity|].
  rewrite map_map.
  assert (Hsum : map (fun x => ((- x - - Np.mean xs) / Np.std xs) ^ 4) xs
                 = map (fun x => ((x - Np.mean xs) / Np.std xs) ^ 4) xs).
  { apply map_ext; intros x.
    replace ((- x - - Np.mean xs) / Np.std xs)
      with (- ((x - Np.mean xs) / Np.std xs)) by (field; exact H0).
    ring. }
  rewrite Hsum. reflexivity.
Qed.

Lemma combine_map_r {A B C} (f : B -> C) (l : list A) (xs : list B) :
  combine l (map f xs) = map (fun '(a, b) => (a, f b)) (combine l xs).
Proof.
  revert l; induction xs as [|x xs IH]; intros [|a l]; simpl;
    try reflexivity.
  rewrite IH. reflexivity.
Qed.

(** The magnitude spectrum does not see the sign of the waveform. *)
Lemma spectrum_opp (xs : list R) :
  Spec.spectrum (map Ropp xs) = Spec.spectrum xs.
Proof.
  unfold Spec.spectrum. rewrite length_map. apply map_ext; intros k.
  unfold Np.cabs, Np.dft_bin; cbv zeta. rewrite length_map.
  cbn [fst snd]. rewrite !combine_map_r, !map_map.
  f_equal.
  set (N := List.length xs).
  replace (map (fun x : nat * R =>
                  let '(n, x0) := let '(a, b) := x in (a, - b) in
                  x0 * cos (2 * PI * INR k * INR n / INR N))
             (combine (seq 0 N) xs))
    with (map Ropp
            (map (fun '(n, x) => x * cos (2 * PI * INR k * INR n / INR N))
               (combine (seq 0 N) xs)))
    by (rewrite map_map; apply map_ext; intros [n x]; ring).
  replace (map (fun x : nat * R =>
                  let '(n, x0) := let '(a, b) := x in (a, - b) in
                  x0 * sin (2 * PI * INR k * INR n / INR N))
             (combine (seq 0 N) xs))
    with (map Ropp
            (map (fun '(n, x) => x * sin (2 * PI * INR k * INR n / INR N))
               (combine (seq 0 N) xs)))
    by (rewrite map_map; apply map_ext; intros [n x]; ring).
  rewrite !np_sum_opp. ring.
Qed.

Lemma frequency_features_opp (sr : R) (xs : list R) :
  DataPreprocessor._extract_frequency_features sr (map Ropp xs)
  = DataPreprocessor._extract_frequency_features sr xs.
Proof.
  unfold DataPreprocessor._extract_frequency_features.
  destruct xs as [|x xs]; [reflexivity|].
  cbn [map Np.rfft]. cbv zeta.
  change (- x :: map Ropp xs) with (map Ropp (x :: xs)).
  rewrite !map_map.
  change (map (fun k => Np.cabs (Np.dft_bin (map Ropp (x :: xs)) k))
            (seq 0 (List.length (map Ropp (x :: xs)) / 2 + 1)))
    with (Spec.spectrum (map Ropp (x :: xs))).
  change (map (fun k => Np.cabs (Np.dft_bin (x :: xs) k))
            (seq 0 (List.length (x :: xs) / 2 + 1)))
    with (Spec.spectrum (x :: xs)).
  rewrite spectrum_opp, length_map. reflexivity.
Qed.

(** The three time features that the analyzer reads do not see the sign
    of the waveform. *)
Lemma time_features_opp (xs : list R) (tf : TimeFeatures) :
  DataPreprocessor._extract_time_features xs = Some tf ->
  exists tf',
    DataPreprocessor._extract_time_features (map Ropp xs) = Some tf'
    /\ rms tf' = rms tf
    /\ kurtosis tf' = kurtosis tf
    /\ crest_factor tf' = crest_factor tf.
Proof.
  unfold DataPreprocessor._extract_time_features.
  rewrite np_abs_opp, np_square_opp, kurtosis_opp.
  destruct (Np.max (Np.abs xs)) as [pk|]; [|discriminate].
  destruct (Np.ptp xs) as [p2p|] eqn:Hptp; [|discriminate].
  destruct (DataPreprocessor._kurtosis xs) as [k|]; [|discriminate].
  destruct (DataPreprocessor._skewness xs) as [s|]; [|discriminate].
  intros H; injection H as <-.
  destruct (skewness_some (map Ropp xs)) as [s' ->].
  destruct (Np.ptp (map Ropp xs)) as [p2p'|] eqn:Hptp'.
  - eexists; split; [reflexivity|]. repeat split; reflexivity.
  - destruct xs; discriminate.
Qed.

(** The analysis reads [rms], [kurtosis] and [crest_factor] only. *)
Lemma analyze_reads (tf tf' : TimeFeatures) (ff : FreqFeatures)
    (a : VibrationAnalyzer.Analysis) :
  rms tf' = rms tf -> kurtosis tf' = kurtosis tf ->
  crest_factor tf' = crest_factor tf ->
  VibrationAnalyzer.analyze tf ff = Some a ->
  exists a',
    VibrationAnalyzer.analyze tf' ff = Some a'
    /\ VibrationAnalyzer.fault_score a' = VibrationAnalyzer.fault_score a
    /\ VibrationAnalyzer.damage_level a' = VibrationAnalyzer.damage_level a
    /\ VibrationAnalyzer.is_faulty a' = VibrationAnalyzer.is_faulty a
    /\ VibrationAnalyzer.fault_types a' = VibrationAnalyzer.fault_types a
    /\ VibrationAnalyzer.recommendations a'
       = VibrationAnalyzer.recommendations a.
Proof.
  intros Hrms Hkurt Hcrest.
  assert (Hscore : VibrationAnalyzer._calculate_fault_score tf' ff
                   = VibrationAnalyzer._calculate_fault_score tf ff).
  { unfold VibrationAnalyzer._calculate_fault_score.
    rewrite Hrms, Hkurt, Hcrest. reflexivity. }
  assert (Hdetect : VibrationAnalyzer._detect_fault_types tf' ff
                    = VibrationAnalyzer._detect_fault_types tf ff).
  { unfold VibrationAnalyzer._detect_fault_types.
    rewrite Hrms, Hkurt. reflexivity. }
  unfold VibrationAnalyzer.analyze. rewrite Hscore, Hdetect.
  destruct (VibrationAnalyzer._detect_fault_types tf ff) as [faults|];
    [|discriminate].
  intros H; injection H as <-.
  eexists; split; [reflexivity|]. repeat split; reflexivity.
Qed.

(** X25.  The verdict does not depend on the polarity of the signal: for
    every filter that commutes with the change of sign, a signal and its
    negation get the same fault score, damage level, fault flag, fault
    types and recommendations. *)
Theorem X25_polarity_invariance (sr : R)
    (butter : nat -> R -> R -> option (list R * list R))
    (filtfilt : list R -> list R -> list R -> option (list R))
    (data : list R) (a : VibrationAnalyzer.Analysis) :
  (forall b c x,
      filtfilt b c (map Ropp x) = option_map (map Ropp) (filtfilt b c x)) ->
  Pipeline.run sr butter filtfilt data = Some a ->
  exists a',
    Pipeline.run sr butter filtfilt (map Ropp data) = Some a'
    /\ VibrationAnalyzer.fault_score a' = VibrationAnalyzer.fault_score a
    /\ VibrationAnalyzer.damage_level a' = VibrationAnalyzer.damage_level a
    /\ VibrationAnalyzer.is_faulty a' = VibrationAnalyzer.is_faulty a
    /\ VibrationAnalyzer.fault_types a' = VibrationAnalyzer.fault_types a
    /\ VibrationAnalyzer.recommendations a'
       = VibrationAnalyzer.recommendations a.
Proof.
  intros Hodd Ha.
  destruct (run_inv sr butter filtfilt data a Ha) as (p & Hp & Hanalyze).
  destruct (preprocess_inv sr butter filtfilt data p Hp)
    as (y & Hy & Htf & Hff).
  assert (Hcond : DataPreprocessor.condition sr butter filtfilt (map Ropp data)
                  = Some (map Ropp y)).
  { revert Hy. unfold DataPreprocessor.condition; cbv zeta.
    rewrite remove_mean_opp, !length_map.
    destruct (Nat.ltb 100 (List.length data)).
    - destruct (Py.div 10 (sr / 2)) as [low|]; [|discriminate].
      destruct (Py.div 5000 (sr / 2)) as [q|]; [|discriminate].
      unfold DataPreprocessor.try_filter, DataPreprocessor.try_assign.
      destruct (butter 4%nat low (Py.min q 0.99)) as [[b c]|].
      + rewrite Hodd.
        destruct (filtfilt b c _) as [filtered|]; cbn [option_map];
          intros H; injection H as <-; reflexivity.
      + intros H; injection H as <-; reflexivity.
    - intros H; injection H as <-; reflexivity. }
  destruct (time_features_opp y _ Htf) as (tf' & Htf' & Hrms & Hkurt & Hcrest).
  destruct (analyze_reads _ tf' _ a Hrms Hkurt Hcrest Hanalyze)
    as (a' & Ha' & Hfields).
  exists a'. split; [|exact Hfields].
  unfold Pipeline.run, DataPreprocessor.preprocess.
  rewrite Hcond, Htf', frequency_features_opp, Hff.
  cbn [DataPreprocessor.time_features DataPreprocessor.freq_features].
  exact Ha'.
Qed.

Lemma pass_through_odd (b c x : list R) :
  PassThrough.filtfilt b c (map Ropp x)
  = option_map (map Ropp) (PassThrough.filtfilt b c x).
Proof. reflexivity. Qed.

(** The signal [3; -1] and its negation. *)
Lemma X25_polarity_invariance_witness :
  exists a a',
    PassThrough.run [3; -1] = Some a
    /\ PassThrough.run (map Ropp [3; -1]) = Some a'
    /\ VibrationAnalyzer.fault_score a' = VibrationAnalyzer.fault_score a.
Proof.
  destruct (run_some Config.SAMPLING_RATE PassThrough.butter
              PassThrough.filtfilt sampling_rate_nonzero pass_through_length
              [3; -1] ltac:(discriminate)) as [a Ha].
  destruct (X25_polarity_invariance Config.SAMPLING_RATE PassThrough.butter
              PassThrough.filtfilt [3; -1] a pass_through_odd Ha)
    as (a' & Ha' & Hscore & _).
  exists a, a'. split; [exact Ha|]. split; [exact Ha' | exact Hscore].
Defined.

(** * Rounding and overflow

    What module [F64] computes on three short inputs. *)

Section Binary64.

Import PrimFloat.
#[local] Set Warnings "-inexact-float".
Local Open Scope float_scope.

(** C1.  On the two finite samples [[2^1023, 2^1023]] the sum of the
    samples overflows: the mean is infinite, the zero-mean signal is
    [[-inf, -inf]], its crest factor [inf / inf] is NaN, and [min(nan, 1.0)]
    is NaN.  The pipeline returns the score NaN, which is not in [[0,1]],
    with the level ['critical'] and [is_faulty = False]. *)
Lemma C1_overflow_score_is_nan :
  exists a,
    F64.run 12000 [0x1p1023; 0x1p1023] = Some a
    /\ is_nan (F64.fault_score a) = true
    /\ leb 0 (F64.fault_score a) = false
    /\ leb (F64.fault_score a) 1 = false
    /\ F64.damage_level a = "critical"%string
    /\ F64.is_faulty a = false.
Proof.
  eexists; split; [vm_compute; reflexivity|].
  repeat split; vm_compute; reflexivity.
Qed.

(** C6 as stated fails.  Four bins of a six-sample spectrum at 8000 Hz,
    at 0, 1333, 2667 and 4000 Hz, with the magnitudes 0, 1, 9.5e-9 and
    9.5e-9: [spectral_power] adds the two small squares to 1 one at a time
    and stays at 1, while the high band adds them to each other first, and
    the sum of the three bands is the next float after 1.  The same
    happens on the three bins of a four-sample spectrum, at 0, 2000 and
    4000 Hz, with the magnitudes 1, 9.5e-9 and 9.5e-9. *)
Lemma C6_counterexample :
  (exists fft_freq bands total,
      F64.rfftfreq 6 (1 / 8000) = Some fft_freq
      /\ F64._compute_band_powers fft_freq [0; 1; 9.5e-9; 9.5e-9] = Some bands
      /\ F64.np_sum (F64.square [0; 1; 9.5e-9; 9.5e-9]) = Some total
      /\ total = 1
      /\ F64.py_sum (Py.values bands) = 0x1.0000000000001p+0
      /\ leb (F64.py_sum (Py.values bands)) total = false)
  /\ (exists fft_freq bands total,
        F64.rfftfreq 4 (1 / 8000) = Some fft_freq
        /\ F64._compute_band_powers fft_freq [1; 9.5e-9; 9.5e-9] = Some bands
        /\ F64.np_sum (F64.square [1; 9.5e-9; 9.5e-9]) = Some total
        /\ total = 1
        /\ F64.py_sum (Py.values bands) = 0x1.0000000000001p+0
        /\ leb (F64.py_sum (Py.values bands)) total = false).
Proof.
  split; do 3 eexists;
    (split; [vm_compute; reflexivity|]);
    (split; [vm_compute; reflexivity|]);
    (split; [vm_compute; reflexivity|]);
    repeat split; vm_compute; reflexivity.
Qed.


End Binary64.
